(** * useEnhanceChildren: injecting props into a tree of React children

    A shallow embedding of the hook [useEnhanceChildren]
    (src/hooks/useEnhanceChildren.ts) together with the three React 19
    entry points it calls: [React.isValidElement], [React.cloneElement]
    and [React.Children.map].  The hook walks the children it is given,
    merges a candidate set of props into component elements (own props
    win), and descends into the children of the components that received
    nothing.  The components built on it follow: [Card] with its
    subcomponents (src/components/card.tsx) and the theme of [App]
    (src/app.tsx). *)

From Stdlib Require Import ZArith String List Ascii Bool Lia.
From stdpp Require Import base option list gmap strings pretty.

(** ** Values and nodes *)

(** The values a prop can hold, as far as the hook and [cloneElement]
    look at them: [cloneElement] compares [config.key] and [config.ref]
    with [undefined] and turns [config.key] into a string.  Numbers are
    integers.  The [children] prop is kept apart (see [Props]), since it
    holds nodes. *)
Inductive JsValue :=
| JUndefined
| JNull
| JBool (b : bool)
| JNumber (n : Z)
| JString (s : string).

(** [child.type]: a string for native markup ([div], [span]) or a
    component, which may carry a [displayName].  [id] tells components
    apart. *)
Inductive ElementType :=
| TTag (tag : string)
| TComponent (id : nat) (displayName : option string).

(** [ReactNode] with its elements.  An element has a type, a key ([None]
    is [null]) and a props object.  A props object is a JS object with
    string keys; its [children] entry is represented apart from the other
    entries: [None] when the object has no [children] key. *)
Unset Elimination Schemes.
Inductive ReactNode :=
| RNull
| RUndefined
| RBool (b : bool)
| RNumber (n : Z)
| RString (s : string)
| RArray (items : list ReactNode)
| RElement (e : ReactElement)
with ReactElement :=
| mkElement (type : ElementType) (key : option string) (props : Props)
with Props :=
| mkProps (fields : gmap string JsValue) (children : option ReactNode).
Set Elimination Schemes.

Definition elem_type (e : ReactElement) : ElementType :=
  let 'mkElement t _ _ := e in t.
Definition elem_key (e : ReactElement) : option string :=
  let 'mkElement _ k _ := e in k.
Definition elem_props (e : ReactElement) : Props :=
  let 'mkElement _ _ p := e in p.
Definition fields (p : Props) : gmap string JsValue :=
  let 'mkProps f _ := p in f.
Definition children (p : Props) : option ReactNode :=
  let 'mkProps _ c := p in c.

(** Induction over nodes, through arrays and through the [children] of
    an element. *)
Section ReactNode_induction.
Variable P : ReactNode -> Prop.
Hypothesis P_null : P RNull.
Hypothesis P_undefined : P RUndefined.
Hypothesis P_bool : forall b, P (RBool b).
Hypothesis P_number : forall n, P (RNumber n).
Hypothesis P_string : forall s, P (RString s).
Hypothesis P_array : forall items, Forall P items -> P (RArray items).
Hypothesis P_element : forall ty k f c,
    (forall n, c = Some n -> P n) -> P (RElement (mkElement ty k (mkProps f c))).

Fixpoint ReactNode_ind (n : ReactNode) : P n :=
  match n with
  | RNull => P_null
  | RUndefined => P_undefined
  | RBool b => P_bool b
  | RNumber z => P_number z
  | RString s => P_string s
  | RArray items =>
      P_array items
        ((fix all (l : list ReactNode) : Forall P l :=
            match l with
            | [] => List.Forall_nil P
            | x :: l' => @List.Forall_cons _ P x l' (ReactNode_ind x) (all l')
            end) items)
  | RElement (mkElement ty k (mkProps f c)) =>
      P_element ty k f c
        (match c as c0 return forall n, c0 = Some n -> P n with
         | Some m => fun n H =>
             match H in _ = s return match s with Some x => P x | None => True end with
             | eq_refl => ReactNode_ind m
             end
         | None => fun n H =>
             match H in _ = s return match s with Some x => P x | None => True end with
             | eq_refl => I
             end
         end)
  end.
End ReactNode_induction.

(** ** JavaScript primitives used by the hook *)

(** Truthiness of a node, as tested by [if (childProps?.children)].
    Numbers are integers here; [NaN], falsy as well, is not represented. *)
Definition truthy (n : ReactNode) : bool :=
  match n with
  | RNull | RUndefined => false
  | RBool b => b
  | RNumber z => negb (z =? 0)%Z
  | RString s => negb (String.eqb s "")
  | RArray _ | RElement _ => true
  end.

(** [Number::toString] on an integer: its decimal digits below [1e21],
    and from there on the digits without their trailing zeros, a point
    after the first one, and the exponent ([1e+21], [1.5e+21]).  This is
    what the code prints for every safe integer, and beyond those for the
    integers of at most fifteen significant digits; other integers are
    not [Number]s, or are printed with the fewest digits that tell them
    from their neighbours, which is not represented. *)
Fixpoint drop_zeros (l : list ascii) : list ascii :=
  match l with
  | c :: l' => if Ascii.eqb c "0" then drop_zeros l' else l
  | [] => []
  end.

Definition strip_trailing_zeros (digits : string) : string :=
  string_of_list_ascii (rev (drop_zeros (rev (list_ascii_of_string digits)))).

Definition Number_toString (z : Z) : string :=
  let digits := pretty (Z.abs z) in
  let n := String.length digits in
  let magnitude :=
    if (n <=? 21)%nat then digits
    else match strip_trailing_zeros digits with
         | String d EmptyString => String d EmptyString +:+ "e+" +:+ pretty (n - 1)%nat
         | String d rest => String d ("." +:+ rest) +:+ "e+" +:+ pretty (n - 1)%nat
         | EmptyString => digits
         end in
  if (z <? 0)%Z then "-" +:+ magnitude else magnitude.

(** The numbers [Number_toString] prints as the code does without any
    proviso: [Number.isSafeInteger]. *)
Definition isSafeInteger (z : Z) : bool := (Z.abs z <? 2 ^ 53)%Z.

(** ['' + v]. *)
Definition toStr (v : JsValue) : string :=
  match v with
  | JUndefined => "undefined"
  | JNull => "null"
  | JBool true => "true"
  | JBool false => "false"
  | JNumber z => Number_toString z
  | JString s => s
  end.

(** [Object.keys(p).length]. *)
Definition Object_keys_length (p : Props) : nat :=
  size (fields p) + match children p with Some _ => 1 | None => 0 end.

(** [{...a, ...b}]: the entries of [b] win. *)
Definition spread (a b : Props) : Props :=
  mkProps (fields b ∪ fields a)
          (match children b with Some c => Some c | None => children a end).

(** [{...p, children: c}]. *)
Definition with_children (p : Props) (c : ReactNode) : Props :=
  mkProps (fields p) (Some c).

(** ** React *)

(** The functions of React 19 the hook calls, after
    packages/react/src/jsx/ReactJSXElement.js ([isValidElement],
    [cloneElement], [cloneAndReplaceKey]) and
    packages/react/src/ReactChildren.js ([mapChildren], [mapIntoArray],
    [getElementKey], [escape], [escapeUserProvidedKey]).  Portals, lazy
    children and iterables other than arrays are left out. *)

Definition isValidElement (n : ReactNode) : bool :=
  match n with RElement _ => true | _ => false end.

(** The names [cloneElement] does not copy from its config into the props
    of the clone: [key], [__self], [__source], and [ref] when it is
    [undefined]. *)
Definition isReservedProp (name : string) (v : JsValue) : bool :=
  String.eqb name "key" || String.eqb name "__self" || String.eqb name "__source"
  || (String.eqb name "ref" && match v with JUndefined => true | _ => false end).

(** [React.cloneElement(element, config)]: the props of [element]
    overridden by the entries of [config], the key of [element] unless
    [config.key] is defined. *)
Definition cloneElement (element : ReactElement) (config : Props) : ReactElement :=
  let key :=
    match fields config !! "key" with
    | Some JUndefined | None => elem_key element
    | Some v => Some (toStr v)
    end in
  let copied := filter (fun kv => isReservedProp kv.1 kv.2 = false) (fields config) in
  mkElement (elem_type element) key
            (mkProps (copied ∪ fields (elem_props element))
                     (match children config with
                      | Some c => Some c
                      | None => children (elem_props element)
                      end)).

Definition cloneAndReplaceKey (oldElement : ReactElement) (newKey : string) : ReactElement :=
  mkElement (elem_type oldElement) (Some newKey) (elem_props oldElement).

(** *** Keys given by [React.Children.map] *)

Definition SEPARATOR : string := ".".
Definition SUBSEPARATOR : string := ":".

(** [escape(key)]: ['$'] followed by [key] with [=] and [:] escaped. *)
Fixpoint escape_chars (key : string) : string :=
  match key with
  | EmptyString => EmptyString
  | String c rest =>
      if Ascii.eqb c "=" then String "=" (String "0" (escape_chars rest))
      else if Ascii.eqb c ":" then String "=" (String "2" (escape_chars rest))
      else String c (escape_chars rest)
  end.
Definition escape (key : string) : string := String "$" (escape_chars key).

(** [text.replace(/\/+/g, '$&/')]: one more slash after every run of
    slashes. *)
Fixpoint escapeUserProvidedKey (text : string) : string :=
  match text with
  | EmptyString => EmptyString
  | String c rest =>
      if Ascii.eqb c "/" then
        match rest with
        | String c' _ =>
            if Ascii.eqb c' "/" then String c (escapeUserProvidedKey rest)
            else String c (String "/" (escapeUserProvidedKey rest))
        | EmptyString => String c (String "/" EmptyString)
        end
      else String c (escapeUserProvidedKey rest)
  end.

(** [index.toString(36)]. *)
Definition digit36 (d : nat) : ascii :=
  nth d (list_ascii_of_string "0123456789abcdefghijklmnopqrstuvwxyz") "0"%char.
Fixpoint toString36_from (fuel n : nat) (acc : string) : string :=
  match fuel with
  | O => acc
  | S fuel' =>
      let acc' := String (digit36 (n mod 36)) acc in
      if (n / 36 =? 0)%nat then acc' else toString36_from fuel' (n / 36) acc'
  end.
Definition toString36 (n : nat) : string := toString36_from (S n) n "".

Definition getElementKey (element : ReactNode) (index : nat) : string :=
  match element with
  | RElement e =>
      match elem_key e with
      | Some k => escape k
      | None => toString36 index
      end
  | _ => toString36 index
  end.

(** *** [mapIntoArray] *)

(** The traversal of [mapIntoArray]: arrays are walked member by member,
    every other child is handed to [emit] ([undefined] and booleans as
    [null]) with the prefix and the name built on the way.  The result is
    what the traversal pushes onto the output array, in order. *)
Section Traversal.
Variable emit : ReactNode -> string -> string -> list ReactNode.

Fixpoint traverse (children : ReactNode) (escapedPrefix nameSoFar : string)
  : list ReactNode :=
  match children with
  | RArray items =>
      let nextNamePrefix :=
        if String.eqb nameSoFar "" then SEPARATOR else nameSoFar +:+ SUBSEPARATOR in
      (fix each (l : list ReactNode) (i : nat) : list ReactNode :=
         match l with
         | [] => []
         | child :: l' =>
             traverse child escapedPrefix (nextNamePrefix +:+ getElementKey child i)
             ++ each l' (S i)
         end) items 0%nat
  | RUndefined | RBool _ => emit RNull escapedPrefix nameSoFar
  | _ => emit children escapedPrefix nameSoFar
  end.
End Traversal.

(** The key [mapIntoArray] gives to a mapped element. *)
Definition mappedKey (child : ReactNode) (mappedChild : ReactElement)
    (escapedPrefix childKey : string) : string :=
  let sameKey :=
    match child with
    | RElement e => bool_decide (elem_key e = elem_key mappedChild)
    | _ => false
    end in
  escapedPrefix
  +:+ match elem_key mappedChild with
      | Some k => if sameKey then "" else escapeUserProvidedKey k +:+ "/"
      | None => ""
      end
  +:+ childKey.

(** The [invokeCallback] block of [mapIntoArray]; [nested] is the call
    made when the callback returns an array. *)
Definition invokeCallback (callback : ReactNode -> ReactNode)
    (nested : ReactNode -> string -> string -> list ReactNode)
    (child : ReactNode) (escapedPrefix nameSoFar : string) : list ReactNode :=
  let mappedChild := callback child in
  let childKey :=
    if String.eqb nameSoFar "" then SEPARATOR +:+ getElementKey child 0 else nameSoFar in
  match mappedChild with
  | RArray _ => nested mappedChild (escapeUserProvidedKey childKey +:+ "/") ""
  | RNull | RUndefined => []
  | RElement e => [RElement (cloneAndReplaceKey e (mappedKey child e escapedPrefix childKey))]
  | _ => [mappedChild]
  end.

(** [mapIntoArray(children, array, escapedPrefix, nameSoFar, c => c)]:
    the identity never returns an array for a child that is not one. *)
Definition mapIntoArray_id : ReactNode -> string -> string -> list ReactNode :=
  traverse (invokeCallback (fun c => c) (fun _ _ _ => [])).

Definition mapIntoArray (callback : ReactNode -> ReactNode)
  : ReactNode -> string -> string -> list ReactNode :=
  traverse (invokeCallback callback mapIntoArray_id).

(** [React.Children.map(children, fn)]. *)
Definition Children_map (children : ReactNode) (fn : ReactNode -> ReactNode) : ReactNode :=
  match children with
  | RNull => RNull
  | RUndefined => RUndefined
  | _ => RArray (mapIntoArray fn children "" "")
  end.

(** ** The hook *)

(** [options]: [{ mapProps }] or [{ props }]; a field that is absent is
    [None]. *)
Record Options := mkOptions {
  mapProps : option (gmap string Props);
  props : option Props
}.

Section Enhance.
Variable options : Options.

(** ['mapProps' in options ? options.mapProps[childName] : options.props].
    A label that is not a key of [mapProps] gives [undefined], or a member
    of [Object.prototype], which has no enumerable key of its own: either
    way the test [hasInherited] below fails, as for [None] here. *)
Definition inheritedProps (childName : string) : option Props :=
  match mapProps options with
  | Some m => m !! childName
  | None => props options
  end.

(** [inheritedProps && Object.keys(inheritedProps).length > 0] *)
Definition hasInherited (inherited : option Props) : bool :=
  match inherited with
  | Some p => (0 <? Object_keys_length p)%nat
  | None => false
  end.

(** The body of [enhance] below its first line, that is for a [child]
    that is a valid element: the test on [child.type], the inherited
    props, the merge, and the recursion into [childProps.children].  The
    callback handed to [React.Children.map] is [enhance] itself, written
    out here since [enhance] is defined from this function. *)
Fixpoint enhanceElement (child : ReactElement) : ReactNode :=
  match elem_type child with
  | TTag _ => RElement child
  | TComponent _ displayName =>
      let childName := default "" displayName in
      let childProps := elem_props child in
      let inherited := inheritedProps childName in
      if hasInherited inherited then
        RElement (cloneElement child (spread (default (mkProps ∅ None) inherited) childProps))
      else
        match children childProps with
        | Some c =>
            if truthy c then
              RElement (cloneElement child
                (with_children childProps
                   (Children_map c
                      (fun n => match n with
                                | RElement e => enhanceElement e
                                | _ => n
                                end))))
            else RElement child
        | None => RElement child
        end
  end.

(** [enhance]: [if (!React.isValidElement(child)) return child;] and then
    the body above. *)
Definition enhance (child : ReactNode) : ReactNode :=
  match child with
  | RElement e => enhanceElement e
  | _ => child
  end.

(** The hook: [useMemo(() => React.Children.map(children, enhance), ...)],
    the value the memoised computation returns. *)
Definition useEnhanceChildren (children : ReactNode) : ReactNode :=
  Children_map children enhance.
End Enhance.

(** * Vocabulary of the properties *)

(** ** The branches of [enhance] *)

Definition isComponent (ty : ElementType) : bool :=
  match ty with TComponent _ _ => true | TTag _ => false end.

(** An element whose type is a string tag. *)
Definition isPrimitive (n : ReactNode) : bool :=
  match n with
  | RElement e => negb (isComponent (elem_type e))
  | _ => false
  end.

(** The label a component is looked up under:
    [type?.displayName ?? '']. *)
Definition childName (ty : ElementType) : string :=
  match ty with
  | TComponent _ displayName => default "" displayName
  | TTag _ => ""
  end.

(** The node the merge branch builds from the inherited props [p]. *)
Definition merged (child : ReactElement) (p : Props) : ReactNode :=
  RElement (cloneElement child (spread p (elem_props child))).

(** The node the recursion branch builds for a component [child] whose
    children [c] are truthy. *)
Definition descend (options : Options) (child : ReactElement) (c : ReactNode) : ReactNode :=
  RElement (cloneElement child
              (with_children (elem_props child) (Children_map c (enhance options)))).

(** ** The children [React.Children.map] visits *)

(** The children handed to the callback, in order: the members of nested
    arrays, with [undefined] and booleans passed as [null]. *)
Fixpoint leaves (n : ReactNode) : list ReactNode :=
  match n with
  | RArray items => flat_map leaves items
  | RUndefined | RBool _ => [RNull]
  | _ => [n]
  end.

(** The same children with the name each one is visited under. *)
Fixpoint named_leaves (children : ReactNode) (nameSoFar : string)
  : list (ReactNode * string) :=
  match children with
  | RArray items =>
      let nextNamePrefix :=
        if String.eqb nameSoFar "" then SEPARATOR else nameSoFar +:+ SUBSEPARATOR in
      (fix each (l : list ReactNode) (i : nat) : list (ReactNode * string) :=
         match l with
         | [] => []
         | child :: l' =>
             named_leaves child (nextNamePrefix +:+ getElementKey child i) ++ each l' (S i)
         end) items 0%nat
  | RUndefined | RBool _ => [(RNull, nameSoFar)]
  | _ => [(children, nameSoFar)]
  end.

(** [mappedChild == null]: such a result is not pushed. *)
Definition isEmptyNode (n : ReactNode) : bool :=
  match n with RNull | RUndefined => true | _ => false end.

(** A list without its [null] and [undefined] members. *)
Fixpoint omit_empty (l : list ReactNode) : list ReactNode :=
  match l with
  | [] => []
  | n :: l' => if isEmptyNode n then omit_empty l' else n :: omit_empty l'
  end.

Definition isArray (n : ReactNode) : bool :=
  match n with RArray _ => true | _ => false end.

(** A child as the callback can receive it: not an array, not
    [undefined], not a boolean. *)
Definition isLeaf (n : ReactNode) : bool :=
  match n with RArray _ | RUndefined | RBool _ => false | _ => true end.

(** The members of a list of nodes. *)
Definition members (n : ReactNode) : list ReactNode :=
  match n with RArray items => items | _ => [] end.

(** ** Trees up to keys *)

(** All keys set to [null], in the node and below. *)
Fixpoint eraseKeys (n : ReactNode) : ReactNode :=
  match n with
  | RArray items => RArray (map eraseKeys items)
  | RElement (mkElement ty _ (mkProps f c)) =>
      RElement (mkElement ty None
                  (mkProps f (match c with Some c' => Some (eraseKeys c') | None => None end)))
  | _ => n
  end.

(** Nodes equal up to keys are enhanced into nodes equal up to keys. *)
Definition eraseKeys_congruent (options : Options) (x : ReactNode) : Prop :=
  forall b, eraseKeys x = eraseKeys b ->
            eraseKeys (enhance options x) = eraseKeys (enhance options b).

Definition idempotent_up_to_keys (options : Options) (x : ReactNode) : Prop :=
  eraseKeys (enhance options (enhance options x)) = eraseKeys (enhance options x).

(** ** Shape *)

(** What a tree renders: texts, numbers and elements with their nesting,
    in order.  Arrays are flattened; [null], [undefined] and booleans
    render nothing. *)
#[local] Unset Elimination Schemes.
Inductive Shape :=
| ShNumber (n : Z)
| ShText (s : string)
| ShElement (ty : ElementType) (kids : list Shape).
#[local] Set Elimination Schemes.

Fixpoint shape (n : ReactNode) : list Shape :=
  match n with
  | RNull | RUndefined | RBool _ => []
  | RNumber z => [ShNumber z]
  | RString s => [ShText s]
  | RArray items => flat_map shape items
  | RElement (mkElement ty _ (mkProps _ c)) =>
      [ShElement ty (match c with Some c' => shape c' | None => [] end)]
  end.

(** The number of nodes of a tree; the members of an array are counted,
    the [null] ones included. *)
Fixpoint node_count (n : ReactNode) : nat :=
  match n with
  | RArray items => list_sum (map node_count items)
  | RElement (mkElement _ _ (mkProps _ (Some c))) => S (node_count c)
  | _ => 1
  end.

(** Every component element of a tree, at any depth. *)
Fixpoint components (n : ReactNode) : list ReactElement :=
  match n with
  | RArray items => flat_map components items
  | RElement (mkElement ty _ (mkProps _ c) as e) =>
      (if isComponent ty then [e] else [])
      ++ match c with Some c' => components c' | None => [] end
  | _ => []
  end.

(** No props object the options can hand out has a [children] entry. *)
Definition no_children_entry (p : Props) : bool :=
  match children p with None => true | Some _ => false end.

Definition no_injected_children (options : Options) : bool :=
  match mapProps options with
  | Some m => forallb (fun kp => no_children_entry kp.2) (map_to_list m)
  | None => match props options with Some p => no_children_entry p | None => true end
  end.

(** ** Fixtures: the components and options of the test suite *)

Definition Card_Header : ElementType := TComponent 1 (Some "Card.Header").
Definition Card_Body : ElementType := TComponent 2 (Some "Card.Body").
Definition Card_Footer : ElementType := TComponent 3 (Some "Card.Footer").
Definition WithoutDisplayNameComponent : ElementType := TComponent 4 None.

(** [<ty {...fields}>{children}</ty>], no key. *)
Definition jsx (ty : ElementType) (f : gmap string JsValue) (c : option ReactNode)
  : ReactElement :=
  mkElement ty None (mkProps f c).

(** A props object without [children]. *)
Definition only_fields (f : gmap string JsValue) : Props := mkProps f None.

(** [{ mapProps: m }] and [{ props: p }]. *)
Definition map_options (m : gmap string Props) : Options := mkOptions (Some m) None.
Definition broadcast_options (p : Props) : Options := mkOptions None (Some p).

(** [<Card.Header title="Child Prop" />] under
    [{ 'Card.Header': { title: 'Injected' } }]. *)
Definition header_with_title : ReactElement :=
  jsx Card_Header {[ "title" := JString "Child Prop" ]} None.
Definition injected_title : Props := only_fields {[ "title" := JString "Injected" ]}.
Definition header_title_map : Options :=
  map_options {[ "Card.Header" := injected_title ]}.

Definition header_title_only : Options :=
  map_options {[ "Card.Header" := only_fields {[ "title" := JString "Parent Title" ]} ]}.

(** [{ '': { title: 'Test Title' } }] and [{ Header: { title: 'Test Title' } }]. *)
Definition empty_label_map : Options :=
  map_options {[ "" := only_fields {[ "title" := JString "Test Title" ]} ]}.
Definition wrong_name_map : Options :=
  map_options {[ "Header" := only_fields {[ "title" := JString "Test Title" ]} ]}.

(** A map whose entry for [Card.Header] supplies [children]. *)
Definition header_children_map : Options :=
  map_options {[ "Card.Header" := mkProps ∅ (Some (RString "injected")) ]}.

(** [{ props: { title: 'Test Title' } }]. *)
Definition broadcast_title : Options :=
  broadcast_options (only_fields {[ "title" := JString "Test Title" ]}).

(** [<Card.Body><Card.Header /></Card.Body>] *)
Definition body_around_header : ReactNode :=
  RElement (jsx Card_Body ∅ (Some (RElement (jsx Card_Header ∅ None)))).

(** [<div><Card.Header /></div>] *)
Definition div_around_header : ReactNode :=
  RElement (jsx (TTag "div") ∅ (Some (RElement (jsx Card_Header ∅ None)))).

(** [[<Card.Header />, null, <Card.Footer />]] *)
Definition header_null_footer : ReactNode :=
  RArray [RElement (jsx Card_Header ∅ None); RNull; RElement (jsx Card_Footer ∅ None)].

(** [<Card.Body>{null}<Card.Header /></Card.Body>] *)
Definition null_then_header : ReactNode :=
  RArray [RNull; RElement (jsx Card_Header ∅ None)].
Definition body_null_header : ReactElement :=
  jsx Card_Body ∅ (Some null_then_header).

(** [[<Card.Header />, <Card.Body>x</Card.Body>, <Card.Footer />]] under
    [{ 'Card.Header': { title: 'T' }, 'Card.Footer': { description: 'D' } }]. *)
Definition header_body_footer : ReactNode :=
  RArray [RElement (jsx Card_Header ∅ None);
          RElement (jsx Card_Body ∅ (Some (RString "x")));
          RElement (jsx Card_Footer ∅ None)].
Definition title_and_description_map : Options :=
  map_options {[ "Card.Header" := only_fields {[ "title" := JString "T" ]};
                 "Card.Footer" := only_fields {[ "description" := JString "D" ]} ]}.

(** ** Statements that do not hold, as the specification words them *)

(** Every injected key absent from the node shows up in the props of the
    result. *)
Definition injected_props_appear (options : Options) (e : ReactElement) : Prop :=
  forall p name v r,
    inheritedProps options (childName (elem_type e)) = Some p ->
    fields p !! name = Some v ->
    fields (elem_props e) !! name = None ->
    enhance options (RElement e) = RElement r ->
    fields (elem_props r) !! name = Some v.

(** The result has the node count of the input and keeps every member
    where it was, the [null] ones as [null]. *)
Definition members_kept (options : Options) (T : ReactNode) : Prop :=
  node_count (useEnhanceChildren options T) = node_count T
  /\ length (members (useEnhanceChildren options T)) = length (members T)
  /\ (forall i, members T !! i = Some RNull ->
                members (useEnhanceChildren options T) !! i = Some RNull).

(** A component without [displayName] gets nothing in Map mode. *)
Definition missing_label_not_augmented : Prop :=
  forall m id k own r,
    enhance (map_options m) (RElement (mkElement (TComponent id None) k own)) = RElement r ->
    fields (elem_props r) = fields own.

(** In Broadcast mode every component element of the tree, at any depth,
    ends up with the configured prop. *)
Definition broadcast_reaches_every_component (options : Options) (T : ReactNode)
    (name : string) (v : JsValue) : Prop :=
  Forall (fun r => fields (elem_props r) !! name = Some v)
         (components (useEnhanceChildren options T)).

(** The children of a descended element are mapped in place: as many
    members as before, each the image of the member at the same
    position. *)
Definition children_mapped_in_place (options : Options) (e : ReactElement)
    (c : ReactNode) : Prop :=
  exists r c',
    enhance options (RElement e) = RElement r
    /\ children (elem_props r) = Some c'
    /\ length (members c') = length (members c)
    /\ (forall i x, members c !! i = Some x ->
                    members c' !! i = Some (enhance options x)).

(** * The components built on the hook *)

(** ** JSX (react/jsx-runtime) *)

(** [jsx(type, config)]: the key is taken out of the config, the rest is
    the props object. *)
Definition jsx_runtime (ty : ElementType) (config : Props) : ReactElement :=
  mkElement ty
    (match fields config !! "key" with
     | Some JUndefined | None => None
     | Some v => Some (toStr v)
     end)
    (mkProps (delete "key" (fields config)) (children config)).

(** [{...p, name: v}]. *)
Definition set_field (name : string) (v : JsValue) (p : Props) : Props :=
  mkProps (<[name := v]> (fields p)) (children p).

(** A prop value used as a child: [{title}]. *)
Definition node_of_value (v : JsValue) : ReactNode :=
  match v with
  | JUndefined => RUndefined
  | JNull => RNull
  | JBool b => RBool b
  | JNumber z => RNumber z
  | JString s => RString s
  end.

(** [{ name, ...rest }] on a props object, for a [name] other than
    [children]. *)
Definition take_field (name : string) (p : Props) : JsValue * Props :=
  (default JUndefined (fields p !! name),
   mkProps (delete name (fields p)) (children p)).

(** [{ children, ...rest }]. *)
Definition take_children (p : Props) : ReactNode * Props :=
  (default RUndefined (children p), mkProps (fields p) None).

(** ** Card (src/components/card.tsx) *)

Definition Card_className : string :=
  "max-w-md mx-auto mt-10 bg-white dark:bg-slate-900 shadow-lg rounded-xl border border-gray-200 dark:border-slate-700 overflow-hidden".
Definition Header_className : string :=
  "bg-gray-50 dark:bg-slate-800 px-4 py-3 border-b border-gray-200 dark:border-slate-700 font-semibold text-gray-700 dark:text-slate-200".
Definition Body_className : string :=
  "px-4 py-5 text-gray-800 dark:text-slate-100".
Definition Footer_className : string :=
  "bg-gray-50 dark:bg-slate-800 px-4 py-3 border-t border-gray-200 dark:border-slate-700 text-sm text-gray-500 dark:text-slate-400".

(** [<tag data-testid={testid} {...rest} className={cls}>{child}</tag>],
    the element the three subcomponents return. *)
Definition native_with_rest (tag testid cls : string) (rest : Props) (child : ReactNode)
  : ReactNode :=
  RElement (jsx_runtime (TTag tag)
    (with_children
       (set_field "className" (JString cls)
          (spread (only_fields {[ "data-testid" := JString testid ]}) rest))
       child)).

(** [Card.Header]: [({ title, ...rest }) => <header ...>{title}</header>]. *)
Definition Card_Header_render (p : Props) : ReactNode :=
  let '(title, rest) := take_field "title" p in
  native_with_rest "header" "card-header" Header_className rest (node_of_value title).

(** [Card.Body]: [({ children, ...rest }) => <main ...>{children}</main>]. *)
Definition Card_Body_render (p : Props) : ReactNode :=
  let '(children, rest) := take_children p in
  native_with_rest "main" "card-body" Body_className rest children.

(** [Card.Footer]:
    [({ description, ...rest }) => <footer ...>{description}</footer>]. *)
Definition Card_Footer_render (p : Props) : ReactNode :=
  let '(description, rest) := take_field "description" p in
  native_with_rest "footer" "card-footer" Footer_className rest (node_of_value description).

(** The options [Card] calls the hook with: [{ props }], where [props] is
    what is left of its props without [children]. *)
Definition Card_options (p : Props) : Options :=
  mkOptions None (Some (snd (take_children p))).

(** [Card]: [({ children, ...props }) =>
    <div data-testid="card" className=...>{enhancedChildren}</div>]. *)
Definition Card_render (p : Props) : ReactNode :=
  let enhancedChildren := useEnhanceChildren (Card_options p) (fst (take_children p)) in
  RElement (jsx_runtime (TTag "div")
    (with_children
       (only_fields {[ "data-testid" := JString "card";
                       "className" := JString Card_className ]})
       enhancedChildren)).

(** The attributes and the children of a node that is an element. *)
Definition attributes (n : ReactNode) : gmap string JsValue :=
  match n with RElement e => fields (elem_props e) | _ => ∅ end.
Definition children_of (n : ReactNode) : option ReactNode :=
  match n with RElement e => children (elem_props e) | _ => None end.

(** ** App (src/app.tsx) *)

(** What [App] touches of the browser: [localStorage] and the class list
    of [document.documentElement].  A storage that refuses access is not
    represented. *)
Record Browser := mkBrowser {
  localStorage : gmap string string;
  classList : gset string
}.

(** The initialiser of [useState]; [None] is [typeof window ===
    'undefined']. *)
Definition initialTheme (window : option Browser) : string :=
  match window with
  | None => "light"
  | Some b => default "light" (localStorage b !! "theme")
  end.

(** The effect: [root.classList.toggle('dark', theme === 'dark');
    localStorage.setItem('theme', theme)]. *)
Definition themeEffect (theme : string) (b : Browser) : Browser :=
  mkBrowser (<["theme" := theme]> (localStorage b))
            (if String.eqb theme "dark" then {["dark"%string]} ∪ classList b
             else classList b ∖ {["dark"%string]}).

(** [(t) => (t === 'light' ? 'dark' : 'light')]. *)
Definition toggleTheme (t : string) : string :=
  if String.eqb t "light" then "dark" else "light".

(** The text of the button and its [aria-pressed]. *)
Definition buttonLabel (theme : string) : string :=
  (if String.eqb theme "dark" then "Dark" else "Light") +:+ " mode".
Definition ariaPressed (theme : string) : bool := String.eqb theme "dark".

(** The state of a mounted [App]: the [theme] state and the browser. *)
Record AppState := mkAppState {
  theme : string;
  browser : Browser
}.

(** First render in a browser, followed by the effect. *)
Definition mount (b : Browser) : AppState :=
  let t := initialTheme (Some b) in mkAppState t (themeEffect t b).

(** A click on the button: the state update, the render and the effect
    for the new theme. *)
Definition click (s : AppState) : AppState :=
  let t := toggleTheme (theme s) in mkAppState t (themeEffect t (browser s)).

Definition clicks (n : nat) (s : AppState) : AppState := Nat.iter n click s.

(** ** Vocabulary for the further properties *)

(** Options under which no label inherits a non-empty props object. *)
Definition inherits_nothing (options : Options) : Prop :=
  forall name, hasInherited (inheritedProps options name) = false.

(** The props a label effectively inherits: the object when it passes the
    test of the merge branch. *)
Definition effectiveProps (options : Options) (name : string) : option Props :=
  if hasInherited (inheritedProps options name) then inheritedProps options name
  else None.

(** What a tree renders, attributes included. *)
#[local] Unset Elimination Schemes.
Inductive Rendered :=
| RdNumber (n : Z)
| RdText (s : string)
| RdElement (ty : ElementType) (attrs : gmap string JsValue) (kids : list Rendered).
#[local] Set Elimination Schemes.

Fixpoint rendered (n : ReactNode) : list Rendered :=
  match n with
  | RNull | RUndefined | RBool _ => []
  | RNumber z => [RdNumber z]
  | RString s => [RdText s]
  | RArray items => flat_map rendered items
  | RElement (mkElement ty _ (mkProps f c)) =>
      [RdElement ty f (match c with Some c' => rendered c' | None => [] end)]
  end.

(** An element member of a list has a key. *)
Definition isKeyed (n : ReactNode) : bool :=
  match n with
  | RElement e => match elem_key e with Some _ => true | None => false end
  | _ => true
  end.

(** [<Card.Header key="a" />] *)
Definition keyed_header : ReactNode :=
  RElement (mkElement Card_Header (Some "a") (mkProps ∅ None)).

(** [{ title: 'Título', description: 'Descrição' }], the props of the
    card of the test suite, without [children]. *)
Definition card_props : gmap string JsValue :=
  {[ "title" := JString "Título"; "description" := JString "Descrição" ]}.

(** ** Vocabulary and fixtures for element keys and the documented examples *)

(** A value of [config.key] that is not [undefined] and whose string form
    is given without proviso: a string, [null], a boolean, a safe
    integer. *)
Definition isPrintedKey (v : JsValue) : bool :=
  match v with
  | JUndefined => false
  | JNumber z => isSafeInteger z
  | _ => true
  end.

(** The type of a node that is an element. *)
Definition element_type_of (n : ReactNode) : option ElementType :=
  match n with RElement e => Some (elem_type e) | _ => None end.

(** [React.Fragment]: a symbol, so not a string tag, and without
    [displayName]. *)
Definition Fragment : ElementType := TComponent 0 None.

(** [{ props: { title: 'Injected', id: 'x', key: 7 } }]. *)
Definition injected_with_key : Props :=
  only_fields {[ "title" := JString "Injected"; "id" := JString "x";
                 "key" := JNumber 7 ]}.
Definition broadcast_with_key : Options := broadcast_options injected_with_key.

(** The Broadcast example of the README:
    [<><Card.Header /><Card.Body /><Card.Footer /></>] under
    [{ props: { title: 'Título', description: 'Descrição' } }]. *)
Definition readme_children : ReactNode :=
  RArray [RElement (jsx Card_Header ∅ None);
          RElement (jsx Card_Body ∅ None);
          RElement (jsx Card_Footer ∅ None)].
Definition readme_fragment : ReactNode :=
  RElement (jsx Fragment ∅ (Some readme_children)).
Definition readme_broadcast : Options := broadcast_options (only_fields card_props).

(** [[<WithoutDisplayNameComponent />, <Card.Header />]], the children of
    the test on components without [displayName]. *)
Definition unnamed_then_header : ReactNode :=
  RArray [RElement (jsx WithoutDisplayNameComponent ∅ None);
          RElement (jsx Card_Header ∅ None)].

(** * Properties *)

(** ** The scenarios of the test suite *)

Example map_mode_scenario :
  useEnhanceChildren title_and_description_map header_body_footer
  = RArray
      [RElement (mkElement Card_Header (Some ".0")
                   (mkProps {[ "title" := JString "T" ]} None));
       RElement (mkElement Card_Body (Some ".1")
                   (mkProps ∅ (Some (RArray [RString "x"]))));
       RElement (mkElement Card_Footer (Some ".2")
                   (mkProps {[ "description" := JString "D" ]} None))].
Proof. vm_compute. reflexivity. Qed.

Example broadcast_skips_native_elements :
  useEnhanceChildren broadcast_title
    (RArray [div_around_header; RElement (jsx Card_Header ∅ None)])
  = RArray
      [RElement (mkElement (TTag "div") (Some ".0")
                   (mkProps ∅ (Some (RElement (jsx Card_Header ∅ None)))));
       RElement (mkElement Card_Header (Some ".1")
                   (mkProps {[ "title" := JString "Test Title" ]} None))].
Proof. vm_compute. reflexivity. Qed.

Example nested_children_are_reached_in_map_mode :
  useEnhanceChildren header_title_only body_around_header
  = RArray
      [RElement (mkElement Card_Body (Some ".0")
         (mkProps ∅ (Some (RArray
            [RElement (mkElement Card_Header (Some ".0")
                         (mkProps {[ "title" := JString "Parent Title" ]} None))]))))].
Proof. vm_compute. reflexivity. Qed.

Example keys_of_children :
  toString36 35 = "z"%string /\ toString36 36 = "10"%string
  /\ escape "a=b:c" = "$a=0b=2c"%string
  /\ escapeUserProvidedKey "a//b/c" = "a///b//c"%string.
Proof. repeat split. Qed.

Example numbers_as_strings :
  toStr (JNumber 42) = "42"%string
  /\ toStr (JNumber (-5)) = "-5"%string
  /\ toStr (JNumber (10 ^ 20)) = "100000000000000000000"%string
  /\ toStr (JNumber (10 ^ 21)) = "1e+21"%string
  /\ toStr (JNumber (15 * 10 ^ 20)) = "1.5e+21"%string.
Proof. repeat split; vm_compute; reflexivity. Qed.

(** ** The equations of [enhance] *)

Lemma enhanceElement_eq options e :
  enhanceElement options e =
  match elem_type e with
  | TTag _ => RElement e
  | TComponent _ displayName =>
      let inherited := inheritedProps options (default "" displayName) in
      if hasInherited inherited then merged e (default (mkProps ∅ None) inherited)
      else match children (elem_props e) with
           | Some c => if truthy c then descend options e c else RElement e
           | None => RElement e
           end
  end.
Proof. destruct e as [ty k [f c]]; reflexivity. Qed.

Lemma enhance_element options e :
  enhance options (RElement e) = enhanceElement options e.
Proof. reflexivity. Qed.

Lemma enhance_not_element options n :
  isValidElement n = false -> enhance options n = n.
Proof. destruct n; simpl; intros H; (reflexivity || discriminate H). Qed.

Lemma enhance_tag options e tag :
  elem_type e = TTag tag -> enhance options (RElement e) = RElement e.
Proof. destruct e as [ty k p]; simpl; intros ->; reflexivity. Qed.

Lemma enhance_merge options e p :
  isComponent (elem_type e) = true ->
  inheritedProps options (childName (elem_type e)) = Some p ->
  (0 < Object_keys_length p)%nat ->
  enhance options (RElement e) = merged e p.
Proof.
  destruct e as [[tag|id dn] k own]; simpl; intros Hc Hp Hn; [discriminate|].
  rewrite Hp; simpl.
  destruct (Nat.ltb_spec 0 (Object_keys_length p)); [reflexivity | lia].
Qed.

Lemma enhance_descend options e c :
  isComponent (elem_type e) = true ->
  hasInherited (inheritedProps options (childName (elem_type e))) = false ->
  children (elem_props e) = Some c ->
  truthy c = true ->
  enhance options (RElement e) = descend options e c.
Proof.
  destruct e as [[tag|id dn] k [f ch]]; simpl; intros Hc Hp Hch Ht; [discriminate|].
  rewrite Hp, Hch, Ht. reflexivity.
Qed.

Lemma enhance_leaf options e :
  isComponent (elem_type e) = true ->
  hasInherited (inheritedProps options (childName (elem_type e))) = false ->
  match children (elem_props e) with Some c => truthy c = false | None => True end ->
  enhance options (RElement e) = RElement e.
Proof.
  destruct e as [[tag|id dn] k [f ch]]; simpl; intros Hc Hp Hch; [discriminate|].
  rewrite Hp. destruct ch as [c|]; [rewrite Hch|]; reflexivity.
Qed.

Lemma hasInherited_true inherited :
  hasInherited inherited = true <->
  exists p, inherited = Some p /\ (0 < Object_keys_length p)%nat.
Proof.
  destruct inherited as [p|]; simpl.
  - split.
    + intros H. exists p. split; [reflexivity|]. by apply Nat.ltb_lt.
    + intros (q & [= <-] & H). by apply Nat.ltb_lt.
  - split; [discriminate|]. by intros (q & [=] & _).
Qed.

(** ** Props of a clone *)

Lemma cloneElement_type e config : elem_type (cloneElement e config) = elem_type e.
Proof. reflexivity. Qed.

Lemma cloneElement_lookup e config name :
  fields (elem_props (cloneElement e config)) !! name =
  match fields config !! name with
  | Some v => if isReservedProp name v then fields (elem_props e) !! name else Some v
  | None => fields (elem_props e) !! name
  end.
Proof.
  simpl. rewrite lookup_union, map_lookup_filter.
  destruct (fields config !! name) as [v|] eqn:Hv; simpl.
  - case_guard as Hg; simpl in Hg; rewrite Hg || apply not_false_is_true in Hg;
      rewrite ?Hg; simpl; by destruct (fields (elem_props e) !! name).
  - by destruct (fields (elem_props e) !! name).
Qed.

Lemma cloneElement_children e config :
  children (elem_props (cloneElement e config)) =
  match children config with
  | Some c => Some c
  | None => children (elem_props e)
  end.
Proof. reflexivity. Qed.

Lemma spread_lookup a b name :
  fields (spread a b) !! name =
  match fields b !! name with Some v => Some v | None => fields a !! name end.
Proof.
  simpl. rewrite lookup_union.
  destruct (fields b !! name), (fields a !! name); reflexivity.
Qed.

(** A config made of the element's own props copies nothing new. *)
Lemma cloneElement_own_fields e c :
  fields (elem_props (cloneElement e (with_children (elem_props e) c)))
  = fields (elem_props e).
Proof.
  apply map_eq; intros name. rewrite cloneElement_lookup. simpl.
  destruct (fields (elem_props e) !! name) as [v|] eqn:Hv; rewrite ?Hv; [|done].
  by destruct (isReservedProp name v).
Qed.

(** ** The children [React.Children.map] visits *)

Lemma leaves_Forall_ind (Q : ReactNode -> Prop) :
  Q RNull ->
  (forall z, Q (RNumber z)) ->
  (forall s, Q (RString s)) ->
  (forall e, (forall c, children (elem_props e) = Some c -> Forall Q (leaves c)) ->
             Q (RElement e)) ->
  forall n, Forall Q (leaves n).
Proof.
  intros Hnull Hnum Hstr Helem n.
  induction n as [| |b|z|s|items IH|ty k f c IH] using ReactNode_ind; simpl;
    [ constructor; [auto | constructor] .. | | ].
  - induction IH as [|x l Hx _ IHl]; simpl; [constructor|].
    apply Forall_app; split; assumption.
  - constructor; [|constructor].
    apply Helem. simpl. intros c' ->. by apply IH.
Qed.

Lemma leaves_isLeaf n : Forall (fun x => isLeaf x = true) (leaves n).
Proof.
  induction n as [| |b|z|s|items IH|ty k f c IH] using ReactNode_ind; simpl;
    try (constructor; [reflexivity | constructor]).
  induction IH as [|x l Hx _ IHl]; simpl; [constructor|].
  apply Forall_app; split; assumption.
Qed.

Lemma leaves_of_leaf n : isLeaf n = true -> leaves n = [n].
Proof. destruct n; simpl; intros H; (reflexivity || discriminate H). Qed.

Lemma leaves_of_leaves l :
  Forall (fun x => isLeaf x = true) l -> flat_map leaves l = l.
Proof.
  induction 1 as [|x l Hx _ IH]; simpl; [reflexivity|].
  rewrite (leaves_of_leaf x Hx), IH. reflexivity.
Qed.

Lemma named_leaves_fst c : forall nm, (named_leaves c nm).*1 = leaves c.
Proof.
  induction c as [| |b|z|s|items IH|ty k f c IH] using ReactNode_ind;
    intros nm; simpl; try reflexivity.
  generalize (if String.eqb nm "" then SEPARATOR else nm +:+ SUBSEPARATOR) as pre.
  generalize 0%nat as i.
  induction IH as [|x l Hx _ IHl]; intros i pre; simpl; [reflexivity|].
  rewrite fmap_app, Hx, IHl. reflexivity.
Qed.

Lemma traverse_named emit c :
  forall p nm,
    traverse emit c p nm = flat_map (fun xn => emit xn.1 p xn.2) (named_leaves c nm).
Proof.
  induction c as [| |b|z|s|items IH|ty k f c IH] using ReactNode_ind;
    intros p nm; simpl; rewrite ?app_nil_r; try reflexivity.
  generalize (if String.eqb nm "" then SEPARATOR else nm +:+ SUBSEPARATOR) as pre.
  generalize 0%nat as i.
  induction IH as [|x l Hx _ IHl]; intros i pre; simpl; [reflexivity|].
  rewrite flat_map_app, Hx, IHl. reflexivity.
Qed.

(** The call made for an array result is never reached under the
    identity callback: the children visited are not arrays. *)
Lemma mapIntoArray_id_nested nested c p nm :
  traverse (invokeCallback (fun x => x) nested) c p nm = mapIntoArray_id c p nm.
Proof.
  unfold mapIntoArray_id. rewrite !traverse_named.
  pose proof (leaves_isLeaf c) as Hl. rewrite <- (named_leaves_fst c nm) in Hl.
  induction (named_leaves c nm) as [|[x n] l IH]; simpl; [reflexivity|].
  apply Forall_cons in Hl as [Hx Hl]. simpl in Hx.
  rewrite (IH Hl). f_equal. unfold invokeCallback.
  destruct x; (reflexivity || discriminate Hx).
Qed.

(** Two callbacks that agree on the children visited give the same
    result. *)
Lemma mapIntoArray_ext f g c p nm :
  Forall (fun x => f x = g x) (leaves c) ->
  mapIntoArray f c p nm = mapIntoArray g c p nm.
Proof.
  unfold mapIntoArray. rewrite !traverse_named, <- (named_leaves_fst c nm).
  induction (named_leaves c nm) as [|[x n] l IH]; simpl; intros H; [reflexivity|].
  apply Forall_cons in H as [Hx Hl]. simpl in Hx.
  rewrite (IH Hl). f_equal. unfold invokeCallback. rewrite Hx. reflexivity.
Qed.

Lemma Children_map_ext f g c :
  Forall (fun x => f x = g x) (leaves c) ->
  Children_map c f = Children_map c g.
Proof.
  intros H. destruct c; try reflexivity; unfold Children_map; f_equal;
    by apply mapIntoArray_ext.
Qed.

(** [enhance] depends on the options only through the props a label
    inherits. *)
Lemma enhance_ext o1 o2 :
  (forall name, inheritedProps o1 name = inheritedProps o2 name) ->
  forall n, enhance o1 n = enhance o2 n.
Proof.
  intros Hinh.
  assert (Hl : forall n, Forall (fun x => enhance o1 x = enhance o2 x) (leaves n)).
  { apply leaves_Forall_ind; try reflexivity.
    intros e IH. rewrite !enhance_element, !enhanceElement_eq.
    destruct (elem_type e) as [tag|id dn]; [reflexivity|]. simpl.
    rewrite Hinh.
    destruct (hasInherited (inheritedProps o2 (default "" dn))); [reflexivity|].
    destruct (children (elem_props e)) as [c|]; [|reflexivity].
    destruct (truthy c); [|reflexivity].
    unfold descend. by rewrite (Children_map_ext _ _ _ (IH c eq_refl)). }
  intros n. destruct n; try reflexivity.
  specialize (Hl (RElement e)). simpl in Hl. by apply Forall_cons in Hl as [? _].
Qed.

(** ** Results up to keys *)

Lemma eraseKeys_element e :
  eraseKeys (RElement e) =
  RElement (mkElement (elem_type e) None
              (mkProps (fields (elem_props e)) (eraseKeys <$> children (elem_props e)))).
Proof. destruct e as [ty k [f [c|]]]; reflexivity. Qed.

Lemma eraseKeys_cloneAndReplaceKey e k :
  eraseKeys (RElement (cloneAndReplaceKey e k)) = eraseKeys (RElement e).
Proof. destruct e as [ty k' [f [c|]]]; reflexivity. Qed.

Lemma isEmptyNode_eraseKeys n : isEmptyNode (eraseKeys n) = isEmptyNode n.
Proof. destruct n as [| | | | | |[ty k [f c]]]; reflexivity. Qed.

Lemma truthy_eraseKeys n : truthy (eraseKeys n) = truthy n.
Proof. destruct n as [| | | | | |[ty k [f c]]]; reflexivity. Qed.

Lemma leaves_eraseKeys n : leaves (eraseKeys n) = map eraseKeys (leaves n).
Proof.
  induction n as [| |b|z|s|items IH|ty k f c IH] using ReactNode_ind;
    simpl; try reflexivity.
  induction IH as [|x l Hx _ IHl]; simpl; [reflexivity|].
  rewrite map_app, Hx, IHl. reflexivity.
Qed.

Lemma omit_empty_app l1 l2 : omit_empty (l1 ++ l2) = omit_empty l1 ++ omit_empty l2.
Proof.
  induction l1 as [|x l1 IH]; simpl; [reflexivity|].
  destruct (isEmptyNode x); simpl; by rewrite IH.
Qed.

(** What [invokeCallback] pushes for one child, up to keys. *)
Lemma invokeCallback_eraseKeys f nested x p nm :
  isArray (f x) = false ->
  map eraseKeys (invokeCallback f nested x p nm) = map eraseKeys (omit_empty [f x]).
Proof.
  unfold invokeCallback. destruct (f x) as [| | | | | |e]; intros Ha;
    try discriminate Ha; try reflexivity.
  cbn [map omit_empty isEmptyNode]. f_equal. apply eraseKeys_cloneAndReplaceKey.
Qed.

(** Up to keys, [mapIntoArray] returns the callback's results on the
    children visited, in order, without the empty ones. *)
Lemma mapIntoArray_eraseKeys f c p nm :
  Forall (fun x => isArray (f x) = false) (leaves c) ->
  map eraseKeys (mapIntoArray f c p nm) = map eraseKeys (omit_empty (map f (leaves c))).
Proof.
  unfold mapIntoArray. rewrite traverse_named, <- (named_leaves_fst c nm).
  induction (named_leaves c nm) as [|[x n] l IH]; simpl; intros H; [reflexivity|].
  apply Forall_cons in H as [Hx Hl]. simpl in Hx.
  rewrite map_app, (IH Hl), (invokeCallback_eraseKeys _ _ _ _ _ Hx). simpl.
  destruct (isEmptyNode (f x)); reflexivity.
Qed.

Lemma invokeCallback_isLeaf f nested x p nm :
  isArray (f x) = false -> isLeaf (f x) || isEmptyNode (f x) = true ->
  Forall (fun y => isLeaf y = true) (invokeCallback f nested x p nm).
Proof.
  unfold invokeCallback. destruct (f x) as [| | | | | |e]; simpl; intros Ha Hl;
    try discriminate; repeat constructor.
Qed.

Lemma mapIntoArray_isLeaf f c p nm :
  Forall (fun x => isArray (f x) = false /\ isLeaf (f x) || isEmptyNode (f x) = true)
         (leaves c) ->
  Forall (fun y => isLeaf y = true) (mapIntoArray f c p nm).
Proof.
  unfold mapIntoArray. rewrite traverse_named, <- (named_leaves_fst c nm).
  induction (named_leaves c nm) as [|[x n] l IH]; simpl; intros H; [constructor|].
  apply Forall_cons in H as [[Ha Hx] Hl]. simpl in Ha, Hx.
  apply Forall_app; split; [by apply invokeCallback_isLeaf | by apply IH].
Qed.

(** [enhance] keeps the kind of node it is given. *)
Lemma enhanceElement_is_element options e :
  exists e', enhanceElement options e = RElement e' /\ elem_type e' = elem_type e.
Proof.
  rewrite enhanceElement_eq. destruct (elem_type e) as [tag|id dn] eqn:Hty; simpl.
  - exists e. by rewrite Hty.
  - destruct (hasInherited _); [unfold merged; eexists; split; [reflexivity|]; by simpl|].
    destruct (children (elem_props e)) as [c|]; [|exists e; by rewrite Hty].
    destruct (truthy c); [|exists e; by rewrite Hty].
    unfold descend. eexists; split; [reflexivity|]. by simpl.
Qed.

Lemma enhance_isArray options n : isArray (enhance options n) = isArray n.
Proof.
  destruct n; try reflexivity. simpl.
  by destruct (enhanceElement_is_element options e) as (e' & -> & _).
Qed.

Lemma enhance_isEmptyNode options n : isEmptyNode (enhance options n) = isEmptyNode n.
Proof.
  destruct n; try reflexivity. simpl.
  by destruct (enhanceElement_is_element options e) as (e' & -> & _).
Qed.

Lemma enhance_isLeaf options n : isLeaf (enhance options n) = isLeaf n.
Proof.
  destruct n; try reflexivity. simpl.
  by destruct (enhanceElement_is_element options e) as (e' & -> & _).
Qed.

Lemma leaves_not_array n : Forall (fun x => isArray x = false) (leaves n).
Proof.
  eapply Forall_impl; [apply leaves_isLeaf|]. by intros [] H.
Qed.

Lemma enhance_leaves_not_array options c :
  Forall (fun x => isArray (enhance options x) = false) (leaves c).
Proof.
  eapply Forall_impl; [apply leaves_not_array|].
  intros x Hx. simpl. by rewrite enhance_isArray.
Qed.

(** Up to keys, the children the hook puts in place of [c]. *)
Lemma mapIntoArray_enhance_eraseKeys options c p nm :
  map eraseKeys (mapIntoArray (enhance options) c p nm)
  = map eraseKeys (omit_empty (map (enhance options) (leaves c))).
Proof. apply mapIntoArray_eraseKeys, enhance_leaves_not_array. Qed.

Lemma mapIntoArray_enhance_isLeaf options c p nm :
  Forall (fun y => isLeaf y = true) (mapIntoArray (enhance options) c p nm).
Proof.
  apply mapIntoArray_isLeaf.
  eapply Forall_impl; [apply leaves_isLeaf|].
  intros x Hx. simpl in *. rewrite enhance_isArray, enhance_isLeaf, Hx.
  split; [by destruct x | reflexivity].
Qed.

Lemma Children_map_truthy c f :
  truthy c = true -> Children_map c f = RArray (mapIntoArray f c "" "").
Proof. destruct c; simpl; intros H; (reflexivity || discriminate H). Qed.

Lemma eraseKeys_merged e p :
  eraseKeys (merged e p) =
  RElement (mkElement (elem_type e) None
    (mkProps (fields (elem_props (cloneElement e (spread p (elem_props e)))))
             (eraseKeys <$> match children (elem_props e) with
                            | Some c => Some c
                            | None => children p
                            end))).
Proof.
  unfold merged. rewrite eraseKeys_element, cloneElement_type, cloneElement_children.
  destruct e as [ty k [f [c|]]], p as [pf [pc|]]; reflexivity.
Qed.

Lemma eraseKeys_descend options e c :
  truthy c = true ->
  eraseKeys (descend options e c) =
  RElement (mkElement (elem_type e) None
    (mkProps (fields (elem_props e))
       (Some (RArray (map eraseKeys (omit_empty (map (enhance options) (leaves c)))))))).
Proof.
  intros Ht. unfold descend.
  rewrite eraseKeys_element, cloneElement_type, cloneElement_own_fields,
    cloneElement_children, (Children_map_truthy _ _ Ht).
  simpl. by rewrite mapIntoArray_enhance_eraseKeys.
Qed.

Lemma eraseKeys_element_inv e b :
  eraseKeys (RElement e) = eraseKeys b ->
  exists e', b = RElement e' /\ elem_type e' = elem_type e
             /\ fields (elem_props e') = fields (elem_props e)
             /\ eraseKeys <$> children (elem_props e')
                = eraseKeys <$> children (elem_props e).
Proof.
  destruct b as [| | | | | |e']; rewrite eraseKeys_element;
    try (simpl; discriminate).
  rewrite eraseKeys_element. intros [= Hty Hf Hc]. eauto.
Qed.

Lemma eraseKeys_not_element_inv a b :
  isValidElement a = false -> eraseKeys a = eraseKeys b -> isValidElement b = false.
Proof.
  destruct a, b as [| | | | | |[ty k [f c]]]; simpl; intros Ha H;
    try reflexivity; discriminate.
Qed.

Lemma omit_map_enhance_congr options l :
  Forall (eraseKeys_congruent options) l ->
  forall l', map eraseKeys l = map eraseKeys l' ->
  map eraseKeys (omit_empty (map (enhance options) l))
  = map eraseKeys (omit_empty (map (enhance options) l')).
Proof.
  induction 1 as [|x l Hx _ IH]; intros [|y l']; simpl; try discriminate;
    [reflexivity|].
  intros [= Hxy Hl].
  assert (He : isEmptyNode (enhance options x) = isEmptyNode (enhance options y)).
  { rewrite !enhance_isEmptyNode, <- (isEmptyNode_eraseKeys x), Hxy.
    apply isEmptyNode_eraseKeys. }
  rewrite <- He. destruct (isEmptyNode (enhance options x)); simpl;
    rewrite (IH l' Hl); [reflexivity|]. by rewrite (Hx y Hxy).
Qed.

Lemma eraseKeys_congruent_not_element options x :
  isValidElement x = false -> eraseKeys_congruent options x.
Proof.
  intros Hx b Hb. rewrite (enhance_not_element options x Hx).
  rewrite (enhance_not_element options b); [exact Hb|].
  by apply (eraseKeys_not_element_inv x b).
Qed.

Lemma enhance_eraseKeys_congr_leaves options n :
  Forall (eraseKeys_congruent options) (leaves n).
Proof.
  apply leaves_Forall_ind;
    try (intros; by apply eraseKeys_congruent_not_element).
  intros e IH b Hb.
  destruct (eraseKeys_element_inv e b Hb) as (e' & -> & Hty & Hf & Hc).
  rewrite !enhance_element, !enhanceElement_eq, Hty.
  destruct (elem_type e) as [tag|id dn] eqn:He; [exact Hb|]. simpl.
  destruct (hasInherited (inheritedProps options (default "" dn))).
  - rewrite !eraseKeys_merged, Hty, He.
    assert (Hfs : forall p, fields (elem_props (cloneElement e' p))
                            = fields (elem_props (cloneElement e p))).
    { intros p. apply map_eq; intros name. by rewrite !cloneElement_lookup, Hf. }
    assert (Hsp : forall p, fields (spread p (elem_props e'))
                            = fields (spread p (elem_props e))).
    { intros p. simpl. by rewrite Hf. }
    f_equal. f_equal. f_equal.
    + apply map_eq; intros name. by rewrite !cloneElement_lookup, Hsp, Hf.
    + destruct (children (elem_props e)), (children (elem_props e')); simpl in *;
        congruence.
  - destruct (children (elem_props e)) as [c|] eqn:Hce,
             (children (elem_props e')) as [c'|] eqn:Hce'; simpl in Hc;
      try discriminate; [|exact Hb].
    injection Hc as Hc.
    assert (Ht : truthy c' = truthy c).
    { by rewrite <- (truthy_eraseKeys c'), Hc, truthy_eraseKeys. }
    rewrite Ht. destruct (truthy c) eqn:Htc; [|exact Hb].
    rewrite !eraseKeys_descend, Hty, He, Hf by congruence.
    do 5 f_equal.
    apply (omit_map_enhance_congr options _ (IH c eq_refl)).
    by rewrite <- !leaves_eraseKeys, Hc.
Qed.

Lemma enhance_eraseKeys_congr options a b :
  eraseKeys a = eraseKeys b ->
  eraseKeys (enhance options a) = eraseKeys (enhance options b).
Proof.
  destruct (isValidElement a) eqn:Ha.
  - destruct a; try discriminate.
    pose proof (enhance_eraseKeys_congr_leaves options (RElement e)) as H.
    simpl in H. apply Forall_cons in H as [H _]. apply H.
  - by apply eraseKeys_congruent_not_element.
Qed.

(** ** Enhancing twice *)

(** Merging the same inherited props a second time changes no prop. *)
Lemma merged_absorb e p :
  let r := cloneElement e (spread p (elem_props e)) in
  eraseKeys (merged r p) = eraseKeys (merged e p).
Proof.
  intros r. unfold merged at 2. fold r.
  rewrite eraseKeys_merged, eraseKeys_element. f_equal. f_equal. f_equal.
  - apply map_eq; intros name. unfold r.
    rewrite cloneElement_lookup, spread_lookup, cloneElement_lookup, spread_lookup.
    destruct (fields (elem_props e) !! name) as [w|] eqn:Hw,
             (fields p !! name) as [v|] eqn:Hv; simpl;
      repeat (match goal with
              | |- context [isReservedProp ?a ?b] =>
                  destruct (isReservedProp a b) eqn:?; simpl
              end); congruence.
  - unfold r. rewrite cloneElement_children. simpl.
    destruct (children (elem_props e)), (children p); reflexivity.
Qed.

Lemma omit_map_enhance_idem options l :
  Forall (idempotent_up_to_keys options) l ->
  map eraseKeys (omit_empty (map (enhance options)
                               (omit_empty (map (enhance options) l))))
  = map eraseKeys (omit_empty (map (enhance options) l)).
Proof.
  induction 1 as [|x l Hx _ IH]; simpl; [reflexivity|].
  destruct (isEmptyNode (enhance options x)) eqn:He; [exact IH|]. simpl.
  rewrite enhance_isEmptyNode, He. simpl. by rewrite Hx, IH.
Qed.

(** Mapping [enhance] over the children it has produced. *)
Lemma remap_enhance options c p nm :
  Forall (idempotent_up_to_keys options) (leaves c) ->
  map eraseKeys (omit_empty (map (enhance options)
                               (mapIntoArray (enhance options) c p nm)))
  = map eraseKeys (omit_empty (map (enhance options) (leaves c))).
Proof.
  intros Hc.
  rewrite <- (omit_map_enhance_idem options (leaves c) Hc).
  apply omit_map_enhance_congr.
  - apply Forall_forall. intros x _ b. apply enhance_eraseKeys_congr.
  - apply mapIntoArray_enhance_eraseKeys.
Qed.

Lemma enhance_idempotent_leaves options n :
  Forall (idempotent_up_to_keys options) (leaves n).
Proof.
  apply leaves_Forall_ind; try reflexivity.
  intros e IH. unfold idempotent_up_to_keys.
  rewrite (enhance_element options e), enhanceElement_eq.
  destruct (elem_type e) as [tag|id dn] eqn:He.
  { by rewrite (enhance_tag options e tag He). }
  simpl. destruct (hasInherited (inheritedProps options (default "" dn))) eqn:Hh.
  - apply hasInherited_true in Hh as (p & Hp & Hn). rewrite Hp.
    change (default (mkProps ∅ None) (Some p)) with p. unfold merged at 1.
    rewrite (enhance_merge options (cloneElement e (spread p (elem_props e))) p);
      [apply merged_absorb | | | exact Hn];
      rewrite cloneElement_type, He; [reflexivity | exact Hp].
  - destruct (children (elem_props e)) as [c|] eqn:Hc.
    2:{ rewrite (enhance_leaf options e); rewrite ?He, ?Hc; done. }
    destruct (truthy c) eqn:Ht.
    2:{ rewrite (enhance_leaf options e); rewrite ?He, ?Hc; done. }
    unfold descend at 1.
    rewrite (Children_map_truthy c _ Ht).
    rewrite (enhance_descend options _ (RArray (mapIntoArray (enhance options) c "" "")));
      [ | by rewrite cloneElement_type, He | by rewrite cloneElement_type, He
        | reflexivity | reflexivity ].
    rewrite !eraseKeys_descend by done.
    rewrite cloneElement_type, cloneElement_own_fields.
    do 5 f_equal. simpl leaves.
    rewrite (leaves_of_leaves _ (mapIntoArray_enhance_isLeaf options c "" "")).
    apply remap_enhance, (IH c eq_refl).
Qed.

Lemma enhance_idempotent_up_to_keys options n :
  eraseKeys (enhance options (enhance options n)) = eraseKeys (enhance options n).
Proof.
  destruct n; try reflexivity.
  pose proof (enhance_idempotent_leaves options (RElement e)) as H.
  simpl in H. by apply Forall_cons in H as [H _].
Qed.

(** ** Shape *)

Lemma no_injected_children_spec options name p :
  no_injected_children options = true ->
  inheritedProps options name = Some p -> children p = None.
Proof.
  unfold no_injected_children, inheritedProps.
  destruct (mapProps options) as [m|].
  - intros H Hp. rewrite forallb_forall in H.
    specialize (H (name, p)). simpl in H. unfold no_children_entry in H.
    destruct (children p); [|reflexivity].
    discriminate H. apply list_elem_of_In, elem_of_map_to_list, Hp.
  - destruct (props options) as [q|]; [|discriminate].
    intros H [= <-]. unfold no_children_entry in H. by destruct (children q).
Qed.

Lemma shape_element e :
  shape (RElement e) =
  [ShElement (elem_type e)
     (match children (elem_props e) with Some c => shape c | None => [] end)].
Proof. destruct e as [ty k [f c]]; reflexivity. Qed.

Lemma shape_eraseKeys n : shape (eraseKeys n) = shape n.
Proof.
  induction n as [| |b|z|s|items IH|ty k f c IH] using ReactNode_ind;
    simpl; try reflexivity.
  - induction IH as [|x l Hx _ IHl]; simpl; [reflexivity|]. by rewrite Hx, IHl.
  - destruct c as [c|]; [|reflexivity]. by rewrite (IH c eq_refl).
Qed.

Lemma flat_map_shape_eraseKeys l : flat_map shape (map eraseKeys l) = flat_map shape l.
Proof. induction l as [|x l IH]; simpl; [reflexivity|]. by rewrite shape_eraseKeys, IH. Qed.

Lemma shape_leaves n : flat_map shape (leaves n) = shape n.
Proof.
  induction n as [| |b|z|s|items IH|ty k f c IH] using ReactNode_ind;
    simpl; rewrite ?app_nil_r; try reflexivity.
  induction IH as [|x l Hx _ IHl]; simpl; [reflexivity|].
  by rewrite flat_map_app, Hx, IHl.
Qed.

Lemma shape_omit_empty l : flat_map shape (omit_empty l) = flat_map shape l.
Proof.
  induction l as [|x l IH]; simpl; [reflexivity|].
  destruct x; simpl; by rewrite IH.
Qed.

Lemma shape_map_enhance options l :
  Forall (fun x => shape (enhance options x) = shape x) l ->
  flat_map shape (map (enhance options) l) = flat_map shape l.
Proof. induction 1 as [|x l Hx _ IH]; simpl; [reflexivity|]. by rewrite Hx, IH. Qed.

Lemma shape_mapIntoArray_enhance options c p nm :
  Forall (fun x => shape (enhance options x) = shape x) (leaves c) ->
  flat_map shape (mapIntoArray (enhance options) c p nm) = shape c.
Proof.
  intros H.
  rewrite <- flat_map_shape_eraseKeys, mapIntoArray_enhance_eraseKeys,
    flat_map_shape_eraseKeys, shape_omit_empty, (shape_map_enhance _ _ H).
  apply shape_leaves.
Qed.

Lemma enhance_shape_leaves options n :
  no_injected_children options = true ->
  Forall (fun x => shape (enhance options x) = shape x) (leaves n).
Proof.
  intros Hno. apply leaves_Forall_ind; try reflexivity.
  intros e IH. rewrite enhance_element, enhanceElement_eq.
  destruct (elem_type e) as [tag|id dn] eqn:He; [reflexivity|]. cbv zeta.
  destruct (hasInherited (inheritedProps options (default "" dn))) eqn:Hh.
  - apply hasInherited_true in Hh as (p & Hp & Hn). rewrite Hp.
    change (default (mkProps ∅ None) (Some p)) with p. unfold merged.
    rewrite !shape_element, cloneElement_type, cloneElement_children. simpl.
    rewrite (no_injected_children_spec _ _ _ Hno Hp).
    by destruct e as [ty k [f [c|]]].
  - destruct (children (elem_props e)) as [c|] eqn:Hc; [|reflexivity].
    destruct (truthy c) eqn:Ht; [|reflexivity].
    unfold descend.
    rewrite !shape_element, cloneElement_type, cloneElement_children, Hc,
      (Children_map_truthy _ _ Ht).
    cbn [with_children children shape].
    by rewrite (shape_mapIntoArray_enhance _ _ _ _ (IH c eq_refl)).
Qed.

(** ** The result of the hook *)

Lemma useEnhanceChildren_flat options T :
  isEmptyNode T = false ->
  exists l, useEnhanceChildren options T = RArray l
    /\ Forall (fun x => isLeaf x = true) l
    /\ map eraseKeys l
       = map eraseKeys (omit_empty (map (enhance options) (leaves T))).
Proof.
  intros HT. exists (mapIntoArray (enhance options) T "" ""). split; [|split].
  - destruct T; try reflexivity; discriminate.
  - apply mapIntoArray_enhance_isLeaf.
  - apply mapIntoArray_enhance_eraseKeys.
Qed.

Lemma omit_empty_Forall l : Forall (fun x => isEmptyNode x = false) (omit_empty l).
Proof.
  induction l as [|x l IH]; simpl; [constructor|].
  destruct (isEmptyNode x) eqn:Hx; [exact IH | by constructor].
Qed.

Lemma eraseKeys_nonempty l l' :
  map eraseKeys l = map eraseKeys l' ->
  Forall (fun x => isEmptyNode x = false) l' ->
  Forall (fun x => isEmptyNode x = false) l.
Proof.
  revert l'. induction l as [|x l IH]; intros [|y l']; simpl; try discriminate;
    [constructor|].
  intros [= Hxy Hl] Hy. apply Forall_cons in Hy as [Hy Hl'].
  constructor; [|by apply (IH l')].
  by rewrite <- isEmptyNode_eraseKeys, Hxy, isEmptyNode_eraseKeys.
Qed.

(** ** Props after the merge *)

Lemma merged_lookup e p name :
  fields (elem_props (cloneElement e (spread p (elem_props e)))) !! name =
  match fields (elem_props e) !! name with
  | Some v => Some v
  | None =>
      match fields p !! name with
      | Some v => if isReservedProp name v then None else Some v
      | None => None
      end
  end.
Proof.
  rewrite cloneElement_lookup, spread_lookup.
  destruct (fields (elem_props e) !! name) as [w|] eqn:Hw.
  - by destruct (isReservedProp name w).
  - by destruct (fields p !! name) as [v|].
Qed.

Lemma merged_children e p :
  children (elem_props (cloneElement e (spread p (elem_props e)))) =
  match children (elem_props e) with
  | Some c => Some c
  | None => children p
  end.
Proof.
  rewrite cloneElement_children. simpl.
  destruct (children (elem_props e)), (children p); reflexivity.
Qed.

(** * The claims of the specification *)

(** ** Precedence and merge (C1) *)

(** C1, as stated, fails: an injected [key] is not copied into the props
    of the clone; it sets the key of the clone, as a string. *)
Lemma injected_key_is_not_a_prop :
  ~ injected_props_appear
      (broadcast_options (only_fields {[ "key" := JNumber 5 ]}))
      (jsx Card_Header ∅ None).
Proof.
  intros H.
  specialize (H (only_fields {[ "key" := JNumber 5 ]}) "key"%string (JNumber 5)
                (mkElement Card_Header (Some "5"%string) (mkProps ∅ None))
                eq_refl eq_refl eq_refl).
  assert (Hr : enhance (broadcast_options (only_fields {[ "key" := JNumber 5 ]}))
                 (RElement (jsx Card_Header ∅ None))
               = RElement (mkElement Card_Header (Some "5"%string) (mkProps ∅ None))).
  { vm_compute. reflexivity. }
  specialize (H Hr). vm_compute in H. discriminate H.
Qed.

(** The key of the clone the merge branch returns, for an element that
    has no [key] among its props (React keeps it out of them). *)
Lemma merged_key e p :
  fields (elem_props e) !! "key" = None ->
  elem_key (cloneElement e (spread p (elem_props e))) =
  match fields p !! "key" with
  | Some JUndefined | None => elem_key e
  | Some v => Some (toStr v)
  end.
Proof.
  intros Hk. unfold cloneElement. cbn [elem_key].
  rewrite spread_lookup, Hk. reflexivity.
Qed.

(** C1 (amended): when a component element is augmented, in either mode,
    every prop of its own keeps its own value, its own [children] are
    kept, and every injected prop it does not have appears with the
    injected value, except the names [cloneElement] reserves ([key],
    [__self], [__source], and [ref] when undefined), which never become
    props.  An injected [key] that is a string, [null], a boolean or a
    safe integer becomes the key of the element, as a string; an injected
    [key] that is [undefined], like no injected [key], leaves the key of
    the element as it was. *)
Theorem own_props_win options e p :
  isComponent (elem_type e) = true ->
  inheritedProps options (childName (elem_type e)) = Some p ->
  (0 < Object_keys_length p)%nat ->
  exists r, enhance options (RElement e) = RElement r
    /\ (forall name v, fields (elem_props e) !! name = Some v ->
                       fields (elem_props r) !! name = Some v)
    /\ (forall c, children (elem_props e) = Some c ->
                  children (elem_props r) = Some c)
    /\ (forall name v, fields (elem_props e) !! name = None ->
                       fields p !! name = Some v ->
                       isReservedProp name v = false ->
                       fields (elem_props r) !! name = Some v)
    /\ (children (elem_props e) = None -> children (elem_props r) = children p)
    /\ (forall name v, fields (elem_props e) !! name = None ->
                       fields p !! name = Some v ->
                       isReservedProp name v = true ->
                       fields (elem_props r) !! name = None)
    /\ (forall v, fields (elem_props e) !! "key" = None ->
                  fields p !! "key" = Some v ->
                  isPrintedKey v = true ->
                  elem_key r = Some (toStr v))
    /\ (fields (elem_props e) !! "key" = None ->
        fields p !! "key" = None \/ fields p !! "key" = Some JUndefined ->
        elem_key r = elem_key e).
Proof.
  intros Hc Hp Hn. rewrite (enhance_merge options e p Hc Hp Hn). unfold merged.
  eexists; split; [reflexivity|].
  split; [|split; [|split; [|split; [|split; [|split]]]]].
  - intros name v Hv. by rewrite merged_lookup, Hv.
  - intros c Hch. by rewrite merged_children, Hch.
  - intros name v Hown Hv Hr. by rewrite merged_lookup, Hown, Hv, Hr.
  - intros Hch. by rewrite merged_children, Hch.
  - intros name v Hown Hv Hr. by rewrite merged_lookup, Hown, Hv, Hr.
  - intros v Hk Hv Hpr. rewrite (merged_key e p Hk), Hv. by destruct v.
  - intros Hk [Hv|Hv]; by rewrite (merged_key e p Hk), Hv.
Qed.

(** [<Card.Header title="Child Prop" />] under
    [{ props: { title: 'Injected', id: 'x', key: 7 } }]: the title stays,
    [id] arrives, [key] is no prop and the element has the key ["7"]. *)
Lemma own_props_win_witness :
  isComponent (elem_type header_with_title) = true
  /\ inheritedProps broadcast_with_key (childName (elem_type header_with_title))
     = Some injected_with_key
  /\ (0 < Object_keys_length injected_with_key)%nat
  /\ exists r, enhance broadcast_with_key (RElement header_with_title) = RElement r
       /\ fields (elem_props r) !! "title" = Some (JString "Child Prop")
       /\ fields (elem_props r) !! "id" = Some (JString "x")
       /\ fields (elem_props r) !! "key" = None
       /\ elem_key r = Some "7"%string.
Proof.
  assert (H1 : isComponent (elem_type header_with_title) = true) by reflexivity.
  assert (H2 : inheritedProps broadcast_with_key (childName (elem_type header_with_title))
               = Some injected_with_key) by reflexivity.
  assert (H3 : (0 < Object_keys_length injected_with_key)%nat) by (vm_compute; lia).
  split; [exact H1 | split; [exact H2 | split; [exact H3 |]]].
  destruct (own_props_win broadcast_with_key header_with_title injected_with_key H1 H2 H3)
    as (r & Hr & Hown & _ & Hinj & _ & Hres & Hkey & _).
  exists r. split; [exact Hr|]. split; [|split; [|split]].
  - apply Hown. vm_compute. reflexivity.
  - apply (Hinj "id"%string); vm_compute; reflexivity.
  - apply (Hres "key"%string (JNumber 7)); vm_compute; reflexivity.
  - rewrite (Hkey (JNumber 7)); vm_compute; reflexivity.
Defined.

(** ** Map mode (C3, C9) *)

(** C3: what the code does where it departs from the claim.  With
    [{ mapProps: { '': { title: 'Test Title' } } }] the component without
    [displayName] of the test suite is looked up under the empty string
    and comes back with the title, while the [Card.Header] next to it,
    whose label is not a key of the map, is left alone.  The claim, the
    test "não deve injetar props em componentes sem displayName" and the
    documentation of the hook say that a component without label gets
    nothing. *)
Lemma unnamed_component_is_augmented :
  enhance empty_label_map (RElement (jsx WithoutDisplayNameComponent ∅ None))
  = RElement (mkElement WithoutDisplayNameComponent None
                (mkProps {[ "title" := JString "Test Title" ]} None))
  /\ useEnhanceChildren empty_label_map unnamed_then_header
     = RArray
         [RElement (mkElement WithoutDisplayNameComponent (Some ".0")
                      (mkProps {[ "title" := JString "Test Title" ]} None));
          RElement (mkElement Card_Header (Some ".1") (mkProps ∅ None))].
Proof. split; vm_compute; reflexivity. Qed.

(** The same, against the statement that a component without
    [displayName] gets nothing in Map mode. *)
Lemma missing_label_is_augmented : ~ missing_label_not_augmented.
Proof.
  intros H.
  specialize (H {[ "" := only_fields {[ "title" := JString "Test Title" ]} ]}
                4%nat None (mkProps ∅ None)
                (mkElement WithoutDisplayNameComponent None
                   (mkProps {[ "title" := JString "Test Title" ]} None))).
  assert (Hr : fields (elem_props (mkElement WithoutDisplayNameComponent None
                 (mkProps {[ "title" := JString "Test Title" ]} None))) !! "title"
               = fields (mkProps ∅ None) !! "title").
  { rewrite H; [reflexivity|]. vm_compute. reflexivity. }
  vm_compute in Hr. discriminate Hr.
Qed.

(** Map mode as the code has it: a component element is looked up under
    its [displayName], or under the empty string when it has none.  It is
    merged with the props object the map has under that label when that
    object is non-empty; otherwise (no entry, or an empty one) no prop is
    added to it. *)
Theorem map_mode_targeting m pr e id dn :
  elem_type e = TComponent id dn ->
  let options := mkOptions (Some m) pr in
  let label := default "" dn in
  (forall p, m !! label = Some p -> (0 < Object_keys_length p)%nat ->
             enhance options (RElement e) = merged e p)
  /\ (m !! label = None
      \/ (exists p, m !! label = Some p /\ Object_keys_length p = 0%nat) ->
      exists r, enhance options (RElement e) = RElement r
        /\ elem_type r = elem_type e
        /\ fields (elem_props r) = fields (elem_props e)).
Proof.
  intros He options label. split.
  - intros p Hp Hn.
    apply enhance_merge; rewrite ?He; [reflexivity | exact Hp | exact Hn].
  - intros Hnone.
    assert (Hh : hasInherited (inheritedProps options (childName (elem_type e))) = false).
    { rewrite He. unfold inheritedProps. simpl. fold label.
      destruct Hnone as [-> | (p & -> & Hz)]; [reflexivity|].
      simpl. rewrite Hz. reflexivity. }
    destruct (children (elem_props e)) as [c|] eqn:Hc.
    + destruct (truthy c) eqn:Ht.
      * rewrite (enhance_descend options e c)
          by (assumption || (rewrite He; reflexivity)).
        unfold descend. eexists; split; [reflexivity|]. split.
        -- apply cloneElement_type.
        -- apply cloneElement_own_fields.
      * rewrite (enhance_leaf options e)
          by (assumption || (rewrite He; reflexivity) || (by rewrite Hc)).
        eauto.
    + rewrite (enhance_leaf options e)
        by (assumption || (rewrite He; reflexivity) || (by rewrite Hc)).
      eauto.
Qed.

Lemma map_mode_targeting_witness :
  elem_type (jsx Card_Header ∅ None) = TComponent 1 (Some "Card.Header")
  /\ exists r, enhance wrong_name_map (RElement (jsx Card_Header ∅ None)) = RElement r
       /\ elem_type r = Card_Header
       /\ fields (elem_props r) = ∅.
Proof.
  split; [reflexivity|].
  apply (map_mode_targeting
           {[ "Header" := only_fields {[ "title" := JString "Test Title" ]} ]}
           None (jsx Card_Header ∅ None) 1%nat (Some "Card.Header"%string) eq_refl).
  left. vm_compute. reflexivity.
Defined.

(** C9: in Map mode a component without [displayName] is looked up under
    the empty string; when the map has a non-empty props object there,
    such a component is augmented with it. *)
Theorem empty_label_lookup options m p e id :
  mapProps options = Some m ->
  m !! "" = Some p ->
  (0 < Object_keys_length p)%nat ->
  elem_type e = TComponent id None ->
  inheritedProps options (childName (elem_type e)) = m !! ""
  /\ enhance options (RElement e) = merged e p
  /\ (forall name v, fields p !! name = Some v ->
                     isReservedProp name v = false ->
                     fields (elem_props e) !! name = None ->
                     exists r, enhance options (RElement e) = RElement r
                               /\ fields (elem_props r) !! name = Some v).
Proof.
  intros Hm Hp Hn He.
  assert (Hi : inheritedProps options (childName (elem_type e)) = m !! "").
  { rewrite He. unfold inheritedProps. by rewrite Hm. }
  assert (Hen : enhance options (RElement e) = merged e p).
  { apply enhance_merge; [by rewrite He | by rewrite Hi | exact Hn]. }
  split; [exact Hi | split; [exact Hen|]].
  intros name v Hv Hr Hown. rewrite Hen. unfold merged.
  eexists; split; [reflexivity|]. by rewrite merged_lookup, Hown, Hv, Hr.
Qed.

Lemma empty_label_lookup_witness :
  mapProps empty_label_map
  = Some {[ "" := only_fields {[ "title" := JString "Test Title" ]} ]}
  /\ ({[ "" := only_fields {[ "title" := JString "Test Title" ]} ]} : gmap string Props)
       !! "" = Some (only_fields {[ "title" := JString "Test Title" ]})
  /\ (0 < Object_keys_length (only_fields {[ "title" := JString "Test Title" ]}))%nat
  /\ elem_type (jsx WithoutDisplayNameComponent ∅ None) = TComponent 4 None
  /\ enhance empty_label_map (RElement (jsx WithoutDisplayNameComponent ∅ None))
     = merged (jsx WithoutDisplayNameComponent ∅ None)
              (only_fields {[ "title" := JString "Test Title" ]}).
Proof.
  assert (H1 : mapProps empty_label_map
               = Some {[ "" := only_fields {[ "title" := JString "Test Title" ]} ]})
    by reflexivity.
  assert (H2 : ({[ "" := only_fields {[ "title" := JString "Test Title" ]} ]}
                  : gmap string Props) !! ""
               = Some (only_fields {[ "title" := JString "Test Title" ]}))
    by (vm_compute; reflexivity).
  assert (H3 : (0 < Object_keys_length
                      (only_fields {[ "title" := JString "Test Title" ]}))%nat)
    by (vm_compute; lia).
  split; [exact H1 | split; [exact H2 | split; [exact H3 | split; [reflexivity|]]]].
  exact (proj1 (proj2 (empty_label_lookup empty_label_map _ _
                         (jsx WithoutDisplayNameComponent ∅ None) 4%nat
                         H1 H2 H3 eq_refl))).
Defined.

(** ** Broadcast mode (C4) *)

(** C4: what the code does where it departs from the claim.  In the
    Broadcast example of the README the children are a fragment; the
    fragment is not a string tag, so it takes the props itself and
    [enhance] returns without looking at its children: [Card.Header],
    [Card.Body] and [Card.Footer] come back as they were, without [title]
    or [description].  Likewise the header inside
    [<Card.Body><Card.Header /></Card.Body>] receives nothing.  The
    claim, the README and the documentation of the hook say that every
    component child receives the props. *)
Lemma broadcast_stops_at_the_first_component :
  useEnhanceChildren readme_broadcast readme_fragment
  = RArray [RElement (mkElement Fragment (Some ".0")
                        (mkProps card_props (Some readme_children)))]
  /\ components (useEnhanceChildren readme_broadcast readme_fragment)
     = [mkElement Fragment (Some ".0") (mkProps card_props (Some readme_children));
        jsx Card_Header ∅ None; jsx Card_Body ∅ None; jsx Card_Footer ∅ None]
  /\ useEnhanceChildren broadcast_title body_around_header
     = RArray [RElement (mkElement Card_Body (Some ".0")
                 (mkProps {[ "title" := JString "Test Title" ]}
                    (Some (RElement (jsx Card_Header ∅ None)))))].
Proof. repeat split; vm_compute; reflexivity. Qed.

(** The same, against the statement that every component of the tree
    ends up with the configured prop. *)
Lemma nested_component_not_reached :
  ~ broadcast_reaches_every_component broadcast_title body_around_header
      "title" (JString "Test Title").
Proof.
  unfold broadcast_reaches_every_component. intros H.
  assert (Hc : components (useEnhanceChildren broadcast_title body_around_header)
               = [ mkElement Card_Body (Some ".0"%string)
                     (mkProps {[ "title" := JString "Test Title" ]}
                        (Some (RElement (jsx Card_Header ∅ None))));
                   jsx Card_Header ∅ None ]).
  { vm_compute. reflexivity. }
  rewrite Hc in H. apply Forall_cons in H as [_ H]. apply Forall_cons in H as [H _].
  vm_compute in H. discriminate H.
Qed.

(** Broadcast mode as the code has it: with a non-empty props object,
    every component element [enhance] is applied to is merged with that
    object, whatever its [displayName]; the hook applies [enhance] to the
    top-level children only (the members of nested arrays included), so
    the result is, up to keys, the list of their images. *)
Theorem broadcast_targets_visited_components options p :
  mapProps options = None ->
  props options = Some p ->
  (0 < Object_keys_length p)%nat ->
  (forall e, isComponent (elem_type e) = true ->
             enhance options (RElement e) = merged e p)
  /\ (forall e name v,
         isComponent (elem_type e) = true ->
         fields p !! name = Some v ->
         isReservedProp name v = false ->
         fields (elem_props e) !! name = None ->
         exists r, enhance options (RElement e) = RElement r
                   /\ fields (elem_props r) !! name = Some v)
  /\ (forall T, isEmptyNode T = false ->
         exists l, useEnhanceChildren options T = RArray l
           /\ map eraseKeys l
              = map eraseKeys (omit_empty (map (enhance options) (leaves T)))).
Proof.
  intros Hm Hp Hn.
  assert (Hall : forall e, isComponent (elem_type e) = true ->
                           enhance options (RElement e) = merged e p).
  { intros e He. apply enhance_merge; [exact He | | exact Hn].
    unfold inheritedProps. by rewrite Hm. }
  split; [exact Hall | split].
  - intros e name v He Hv Hr Hown. rewrite (Hall e He). unfold merged.
    eexists; split; [reflexivity|]. by rewrite merged_lookup, Hown, Hv, Hr.
  - intros T HT. destruct (useEnhanceChildren_flat options T HT) as (l & Hl & _ & He).
    eauto.
Qed.

Lemma broadcast_targets_visited_components_witness :
  mapProps broadcast_title = None
  /\ props broadcast_title = Some (only_fields {[ "title" := JString "Test Title" ]})
  /\ (0 < Object_keys_length (only_fields {[ "title" := JString "Test Title" ]}))%nat
  /\ enhance broadcast_title (RElement (jsx WithoutDisplayNameComponent ∅ None))
     = merged (jsx WithoutDisplayNameComponent ∅ None)
              (only_fields {[ "title" := JString "Test Title" ]}).
Proof.
  assert (H3 : (0 < Object_keys_length
                      (only_fields {[ "title" := JString "Test Title" ]}))%nat)
    by (vm_compute; lia).
  split; [reflexivity | split; [reflexivity | split; [exact H3|]]].
  exact (proj1 (broadcast_targets_visited_components broadcast_title _
                  eq_refl eq_refl H3)
               (jsx WithoutDisplayNameComponent ∅ None) eq_refl).
Defined.

(** ** The two branches of a component (C5, C6) *)

(** C5: a component element whose inherited props are non-empty is
    cloned with them merged under its own props: every prop it had keeps
    its value and every inherited prop it did not have arrives (the names
    [cloneElement] reserves apart).  The traversal stops there: the
    [children] it has are kept as they are, not mapped.  (An element
    without [children] has, after the merge, the [children] entry of the
    inherited props if there is one.) *)
Theorem matched_node_is_not_descended options e p :
  isComponent (elem_type e) = true ->
  inheritedProps options (childName (elem_type e)) = Some p ->
  (0 < Object_keys_length p)%nat ->
  exists r, enhance options (RElement e) = RElement r
    /\ r = cloneElement e (spread p (elem_props e))
    /\ elem_type r = elem_type e
    /\ (forall c, children (elem_props e) = Some c ->
                  children (elem_props r) = Some c)
    /\ (children (elem_props e) = None ->
        children (elem_props r) = children p)
    /\ (forall name v, fields (elem_props e) !! name = Some v ->
                       fields (elem_props r) !! name = Some v)
    /\ (forall name v, fields (elem_props e) !! name = None ->
                       fields p !! name = Some v ->
                       isReservedProp name v = false ->
                       fields (elem_props r) !! name = Some v).
Proof.
  intros Hc Hp Hn. rewrite (enhance_merge options e p Hc Hp Hn). unfold merged.
  eexists; split; [reflexivity|]. split; [reflexivity|]. split; [reflexivity|].
  split; [|split; [|split]].
  - intros c Hch. by rewrite merged_children, Hch.
  - intros Hch. by rewrite merged_children, Hch.
  - intros name v Hv. by rewrite merged_lookup, Hv.
  - intros name v Hown Hv Hr. by rewrite merged_lookup, Hown, Hv, Hr.
Qed.

(** [<Card.Body><Card.Header /></Card.Body>] under
    [{ props: { title: 'Test Title' } }]: the body receives the title and
    keeps the header it contains as it was, without one. *)
Lemma matched_node_is_not_descended_witness :
  isComponent Card_Body = true
  /\ inheritedProps broadcast_title "Card.Body"
     = Some (only_fields {[ "title" := JString "Test Title" ]})
  /\ (0 < Object_keys_length (only_fields {[ "title" := JString "Test Title" ]}))%nat
  /\ exists r, enhance broadcast_title body_around_header = RElement r
       /\ fields (elem_props r) !! "title" = Some (JString "Test Title")
       /\ children (elem_props r) = Some (RElement (jsx Card_Header ∅ None)).
Proof.
  assert (H3 : (0 < Object_keys_length
                      (only_fields {[ "title" := JString "Test Title" ]}))%nat)
    by (vm_compute; lia).
  split; [reflexivity | split; [reflexivity | split; [exact H3|]]].
  destruct (matched_node_is_not_descended broadcast_title
              (jsx Card_Body ∅ (Some (RElement (jsx Card_Header ∅ None))))
              (only_fields {[ "title" := JString "Test Title" ]})
              eq_refl eq_refl H3) as (r & Hr & _ & _ & Hch & _ & _ & Hinj).
  exists r. split; [exact Hr|]. split.
  - apply Hinj; vm_compute; reflexivity.
  - apply Hch. reflexivity.
Defined.

(** C6, as stated, fails: the children put in place are the list
    [React.Children.map] returns, which leaves a [null] child out. *)
Lemma descended_children_lose_null :
  ~ children_mapped_in_place header_title_only body_null_header null_then_header.
Proof.
  intros (r & c' & Hr & Hc & Hlen & _).
  assert (He : enhance header_title_only (RElement body_null_header)
               = RElement (mkElement Card_Body None
                   (mkProps ∅ (Some (RArray
                      [RElement (mkElement Card_Header (Some ".1"%string)
                                   (mkProps {[ "title" := JString "Parent Title" ]}
                                            None))])))))
    by (vm_compute; reflexivity).
  rewrite He in Hr. injection Hr as <-. simpl in Hc. injection Hc as <-.
  simpl in Hlen. discriminate Hlen.
Qed.

(** C6 (amended): a component element that inherits nothing and has truthy
    [children] is cloned with the same type, key and props, its children
    replaced by the result of [React.Children.map(children, enhance)]:
    up to the keys that call assigns, the images of the children in
    order, the members of nested arrays included and the [null],
    [undefined] and boolean ones left out.  With no [children], or falsy
    ones, the element is returned as it is.  (React keeps the key out of
    the props of an element, hence the first hypothesis.) *)
Theorem unmatched_node_is_descended options e :
  fields (elem_props e) !! "key" = None ->
  isComponent (elem_type e) = true ->
  hasInherited (inheritedProps options (childName (elem_type e))) = false ->
  match children (elem_props e) with
  | Some c =>
      if truthy c then
        exists l,
          enhance options (RElement e)
          = RElement (mkElement (elem_type e) (elem_key e)
                        (mkProps (fields (elem_props e)) (Some (RArray l))))
          /\ l = mapIntoArray (enhance options) c "" ""
          /\ map eraseKeys l
             = map eraseKeys (omit_empty (map (enhance options) (leaves c)))
      else enhance options (RElement e) = RElement e
  | None => enhance options (RElement e) = RElement e
  end.
Proof.
  intros Hk Hc Hh. destruct (children (elem_props e)) as [c|] eqn:Hch.
  - destruct (truthy c) eqn:Ht.
    + exists (mapIntoArray (enhance options) c "" ""). split; [|split].
      * rewrite (enhance_descend options e c Hc Hh Hch Ht). unfold descend.
        rewrite (Children_map_truthy _ _ Ht). f_equal.
        pose proof (cloneElement_own_fields e
                      (RArray (mapIntoArray (enhance options) c "" ""))) as Hf.
        destruct e as [ty k [f ch]]. unfold cloneElement. simpl in *.
        by rewrite Hk, Hf.
      * reflexivity.
      * apply mapIntoArray_enhance_eraseKeys.
    + apply enhance_leaf; [exact Hc | exact Hh | by rewrite Hch].
  - apply enhance_leaf; [exact Hc | exact Hh | by rewrite Hch].
Qed.

Lemma unmatched_node_is_descended_witness :
  fields (elem_props (jsx Card_Body ∅ (Some (RElement (jsx Card_Header ∅ None)))))
    !! "key" = None
  /\ isComponent Card_Body = true
  /\ hasInherited (inheritedProps header_title_only "Card.Body") = false
  /\ exists l,
       enhance header_title_only body_around_header
       = RElement (mkElement Card_Body None (mkProps ∅ (Some (RArray l))))
       /\ l = mapIntoArray (enhance header_title_only)
                (RElement (jsx Card_Header ∅ None)) "" ""
       /\ map eraseKeys l
          = map eraseKeys
              (omit_empty (map (enhance header_title_only)
                             (leaves (RElement (jsx Card_Header ∅ None))))).
Proof.
  assert (H1 : fields (elem_props
                 (jsx Card_Body ∅ (Some (RElement (jsx Card_Header ∅ None)))))
               !! "key" = None) by (vm_compute; reflexivity).
  assert (H3 : hasInherited (inheritedProps header_title_only "Card.Body") = false)
    by (vm_compute; reflexivity).
  split; [exact H1 | split; [reflexivity | split; [exact H3|]]].
  exact (unmatched_node_is_descended header_title_only
           (jsx Card_Body ∅ (Some (RElement (jsx Card_Header ∅ None))))
           H1 eq_refl H3).
Defined.

(** ** Pass-through (C7) *)

(** C7: an element whose type is a string tag is returned as it is, in
    either mode and whatever the options, its children included; so is
    every value that is not an element. *)
Theorem primitive_and_non_element_unchanged options child :
  isValidElement child = false \/ isPrimitive child = true ->
  enhance options child = child.
Proof.
  intros [H|H]; [by apply enhance_not_element|].
  destruct child as [| | | | | |e]; try discriminate H. simpl in H.
  destruct (elem_type e) as [tag|id dn] eqn:He; [|discriminate H].
  by apply (enhance_tag options e tag).
Qed.

Lemma primitive_and_non_element_unchanged_witness :
  (isValidElement div_around_header = false \/ isPrimitive div_around_header = true)
  /\ enhance broadcast_title div_around_header = div_around_header.
Proof.
  assert (H : isValidElement div_around_header = false
              \/ isPrimitive div_around_header = true) by (right; reflexivity).
  split; [exact H|].
  exact (primitive_and_non_element_unchanged broadcast_title div_around_header H).
Defined.

(** ** Options with both fields (C8) *)

(** C8: when [mapProps] is present the [props] field is never read: the
    result is the one for [mapProps] alone. *)
Theorem mapProps_hides_props m p T :
  enhance (mkOptions (Some m) (Some p)) T = enhance (mkOptions (Some m) None) T
  /\ useEnhanceChildren (mkOptions (Some m) (Some p)) T
     = useEnhanceChildren (mkOptions (Some m) None) T.
Proof.
  assert (H : forall n, enhance (mkOptions (Some m) (Some p)) n
                        = enhance (mkOptions (Some m) None) n).
  { apply enhance_ext. reflexivity. }
  split; [apply H|].
  unfold useEnhanceChildren. apply Children_map_ext.
  apply Forall_forall. intros x _. apply H.
Qed.

(** ** Shape and order of the result (C2) *)

(** C2, as stated, fails: [React.Children.map] leaves [null] members out
    of the list it returns. *)
Lemma null_members_are_dropped : ~ members_kept (map_options ∅) header_null_footer.
Proof.
  intros (_ & Hlen & _).
  assert (Hr : useEnhanceChildren (map_options ∅) header_null_footer
               = RArray [RElement (mkElement Card_Header (Some ".0"%string) (mkProps ∅ None));
                         RElement (mkElement Card_Footer (Some ".2"%string) (mkProps ∅ None))]).
  { vm_compute. reflexivity. }
  rewrite Hr in Hlen. simpl in Hlen. discriminate Hlen.
Qed.

(** C2 (amended): when no inherited props object supplies [children],
    the result renders the same tree as the input: same texts, numbers
    and elements, same nesting, same order.  [null] and [undefined] are
    returned as they are; any other input gives a flat list without
    [null], [undefined], booleans or nested lists, holding up to keys the
    images of the children in input order. *)
Theorem rendered_shape_preserved options T :
  no_injected_children options = true ->
  shape (useEnhanceChildren options T) = shape T
  /\ (isEmptyNode T = true -> useEnhanceChildren options T = T)
  /\ (isEmptyNode T = false ->
      exists l, useEnhanceChildren options T = RArray l
        /\ Forall (fun x => isLeaf x = true /\ isEmptyNode x = false) l
        /\ map eraseKeys l
           = map eraseKeys (omit_empty (map (enhance options) (leaves T)))).
Proof.
  intros Hno. split; [|split].
  - destruct (isEmptyNode T) eqn:HT.
    + by destruct T.
    + assert (Hu : useEnhanceChildren options T
                   = RArray (mapIntoArray (enhance options) T "" ""))
        by (destruct T; try reflexivity; discriminate).
      rewrite Hu. simpl.
      apply shape_mapIntoArray_enhance, enhance_shape_leaves, Hno.
  - intros HT. by destruct T.
  - intros HT. destruct (useEnhanceChildren_flat options T HT) as (l & Hl & Hleaf & He).
    exists l. split; [exact Hl | split; [|exact He]].
    apply Forall_and; split; [exact Hleaf|].
    apply (eraseKeys_nonempty _ _ He), omit_empty_Forall.
Qed.

(** Without the hypothesis the shape can change: an injected [children]
    entry gives children to an element that had none. *)
Lemma injected_children_change_shape :
  shape (useEnhanceChildren header_children_map (RElement (jsx Card_Header ∅ None)))
  <> shape (RElement (jsx Card_Header ∅ None)).
Proof. vm_compute. intros [= H]. Qed.

Lemma rendered_shape_preserved_witness :
  no_injected_children header_title_map = true
  /\ shape (useEnhanceChildren header_title_map header_null_footer)
     = shape header_null_footer.
Proof.
  assert (H : no_injected_children header_title_map = true)
    by (vm_compute; reflexivity).
  split; [exact H|].
  exact (proj1 (rendered_shape_preserved header_title_map header_null_footer H)).
Defined.

(** ** Applying the hook twice (C10) *)

(** C10, as stated, fails: [React.Children.map] derives the key of each
    element it returns from the key it had, so a second pass changes the
    keys. *)
Lemma second_pass_changes_keys :
  useEnhanceChildren (map_options ∅)
    (useEnhanceChildren (map_options ∅) (RElement (jsx Card_Header ∅ None)))
  <> useEnhanceChildren (map_options ∅) (RElement (jsx Card_Header ∅ None)).
Proof.
  assert (H1 : useEnhanceChildren (map_options ∅) (RElement (jsx Card_Header ∅ None))
               = RArray [RElement (mkElement Card_Header (Some ".0"%string)
                                     (mkProps ∅ None))])
    by (vm_compute; reflexivity).
  assert (H2 : useEnhanceChildren (map_options ∅)
                 (RArray [RElement (mkElement Card_Header (Some ".0"%string)
                                      (mkProps ∅ None))])
               = RArray [RElement (mkElement Card_Header (Some ".$.0"%string)
                                     (mkProps ∅ None))])
    by (vm_compute; reflexivity).
  rewrite H1, H2. intros [= H]. 
Qed.

(** C10 (amended): up to the keys of the elements, applying the hook to
    its own result changes nothing: no prop is added and no value
    changes. *)
Theorem enhance_twice_up_to_keys options T :
  eraseKeys (useEnhanceChildren options (useEnhanceChildren options T))
  = eraseKeys (useEnhanceChildren options T).
Proof.
  destruct (isEmptyNode T) eqn:HT; [by destruct T|].
  assert (Hu : useEnhanceChildren options T
               = RArray (mapIntoArray (enhance options) T "" ""))
    by (destruct T; try reflexivity; discriminate).
  rewrite Hu. unfold useEnhanceChildren at 1. cbn [Children_map eraseKeys]. f_equal.
  rewrite mapIntoArray_enhance_eraseKeys. simpl leaves.
  rewrite (leaves_of_leaves _ (mapIntoArray_enhance_isLeaf options T "" "")).
  rewrite remap_enhance by (apply enhance_idempotent_leaves).
  symmetry. apply mapIntoArray_enhance_eraseKeys.
Qed.

(** * Further properties of the hook *)

(** ** What the options are read for *)

Lemma hasInherited_None_false inherited :
  hasInherited inherited = true -> inherited <> None.
Proof. destruct inherited; [discriminate | discriminate]. Qed.

(** [enhance] depends on the options only through the non-empty props
    objects the labels inherit. *)
Lemma enhance_ext_effective o1 o2 :
  (forall name, effectiveProps o1 name = effectiveProps o2 name) ->
  forall n, enhance o1 n = enhance o2 n.
Proof.
  intros Heff.
  assert (Hl : forall n, Forall (fun x => enhance o1 x = enhance o2 x) (leaves n)).
  { apply leaves_Forall_ind; try reflexivity.
    intros e IH. rewrite !enhance_element, !enhanceElement_eq.
    destruct (elem_type e) as [tag|id dn]; [reflexivity|]. cbv zeta.
    specialize (Heff (default "" dn)). unfold effectiveProps in Heff.
    destruct (hasInherited (inheritedProps o1 (default "" dn))) eqn:H1,
             (hasInherited (inheritedProps o2 (default "" dn))) eqn:H2.
    - by rewrite Heff.
    - by apply hasInherited_None_false in H1.
    - symmetry in Heff. by apply hasInherited_None_false in H2.
    - destruct (children (elem_props e)) as [c|]; [|reflexivity].
      destruct (truthy c); [|reflexivity].
      unfold descend. by rewrite (Children_map_ext _ _ _ (IH c eq_refl)). }
  intros n. destruct n; try reflexivity.
  specialize (Hl (RElement e)). simpl in Hl. by apply Forall_cons in Hl as [? _].
Qed.

Lemma useEnhanceChildren_ext o1 o2 T :
  (forall n, enhance o1 n = enhance o2 n) ->
  useEnhanceChildren o1 T = useEnhanceChildren o2 T.
Proof.
  intros H. unfold useEnhanceChildren. apply Children_map_ext.
  apply Forall_forall. intros x _. apply H.
Qed.

Lemma inherits_nothing_effective options name :
  inherits_nothing options -> effectiveProps options name = None.
Proof. intros H. unfold effectiveProps. by rewrite (H name). Qed.

(** X1: whatever the options and the branch taken, [enhance] returns an
    element of the same type that still has every prop the child had,
    with the child's value, and that has [children] if the child had. *)
Theorem enhance_keeps_own_props options e :
  exists r, enhance options (RElement e) = RElement r
    /\ elem_type r = elem_type e
    /\ (forall name v, fields (elem_props e) !! name = Some v ->
                       fields (elem_props r) !! name = Some v)
    /\ (is_Some (children (elem_props e)) -> is_Some (children (elem_props r))).
Proof.
  assert (Hsame : exists r, RElement e = RElement r
            /\ elem_type r = elem_type e
            /\ (forall name v, fields (elem_props e) !! name = Some v ->
                               fields (elem_props r) !! name = Some v)
            /\ (is_Some (children (elem_props e)) ->
                is_Some (children (elem_props r)))).
  { exists e. repeat split; auto. }
  rewrite enhance_element, enhanceElement_eq.
  destruct (elem_type e) as [tag|id dn] eqn:He; [exact Hsame|]. cbv zeta.
  destruct (hasInherited (inheritedProps options (default "" dn))).
  - unfold merged. eexists; split; [reflexivity|].
    split; [by rewrite cloneElement_type|]. split.
    + intros name v Hv. by rewrite merged_lookup, Hv.
    + intros [c Hc]. rewrite merged_children, Hc. eauto.
  - destruct (children (elem_props e)) as [c|] eqn:Hc; [|exact Hsame].
    destruct (truthy c); [|exact Hsame].
    unfold descend. eexists; split; [reflexivity|].
    split; [by rewrite cloneElement_type|]. split.
    + intros name v Hv. by rewrite cloneElement_own_fields.
    + intros _. rewrite cloneElement_children. simpl. eauto.
Qed.

Lemma enhance_keeps_own_props_witness :
  exists r, enhance broadcast_title (RElement header_with_title) = RElement r
    /\ elem_type r = Card_Header
    /\ fields (elem_props r) !! "title" = Some (JString "Child Prop").
Proof.
  destruct (enhance_keeps_own_props broadcast_title header_with_title)
    as (r & Hr & Hty & Hown & _).
  exists r. split; [exact Hr | split; [exact Hty|]].
  apply Hown. vm_compute. reflexivity.
Defined.

(** X2: two configurations under which no label inherits a non-empty
    props object give the same result, keys included: [{ mapProps: {} }],
    [{ props: {} }] and a map whose entries are all empty objects are
    interchangeable. *)
Theorem empty_configurations_agree o1 o2 T :
  inherits_nothing o1 -> inherits_nothing o2 ->
  useEnhanceChildren o1 T = useEnhanceChildren o2 T.
Proof.
  intros H1 H2. apply useEnhanceChildren_ext, enhance_ext_effective.
  intros name. by rewrite !inherits_nothing_effective.
Qed.

Lemma empty_configurations_agree_witness :
  inherits_nothing (map_options ∅)
  /\ inherits_nothing (broadcast_options (mkProps ∅ None))
  /\ useEnhanceChildren (map_options ∅) header_body_footer
     = useEnhanceChildren (broadcast_options (mkProps ∅ None)) header_body_footer.
Proof.
  assert (H1 : inherits_nothing (map_options ∅)).
  { intros name. unfold inheritedProps. simpl. by rewrite lookup_empty. }
  assert (H2 : inherits_nothing (broadcast_options (mkProps ∅ None))).
  { intros name. reflexivity. }
  split; [exact H1 | split; [exact H2|]].
  exact (empty_configurations_agree _ _ header_body_footer H1 H2).
Defined.

(** X3: in Map mode the entries that are empty objects play no part:
    removing them from the map changes nothing in the result. *)
Theorem empty_map_entries_are_ignored m T :
  useEnhanceChildren (map_options m) T
  = useEnhanceChildren
      (map_options (filter (fun kp => (0 < Object_keys_length kp.2)%nat) m)) T.
Proof.
  apply useEnhanceChildren_ext, enhance_ext_effective.
  intros name. unfold effectiveProps, inheritedProps. simpl.
  rewrite map_lookup_filter.
  destruct (m !! name) as [p|] eqn:Hp; simpl; [|reflexivity].
  case_guard as Hg; simpl in Hg; simpl.
  - apply Nat.ltb_lt in Hg. by rewrite Hg.
  - apply Nat.ltb_nlt in Hg. by rewrite Hg.
Qed.

(** ** An empty configuration changes nothing *)

Lemma rendered_element e :
  rendered (RElement e) =
  [RdElement (elem_type e) (fields (elem_props e))
     (match children (elem_props e) with Some c => rendered c | None => [] end)].
Proof. destruct e as [ty k [f c]]; reflexivity. Qed.

Lemma rendered_eraseKeys n : rendered (eraseKeys n) = rendered n.
Proof.
  induction n as [| |b|z|s|items IH|ty k f c IH] using ReactNode_ind;
    simpl; try reflexivity.
  - induction IH as [|x l Hx _ IHl]; simpl; [reflexivity|]. by rewrite Hx, IHl.
  - destruct c as [c|]; [|reflexivity]. by rewrite (IH c eq_refl).
Qed.

Lemma flat_map_rendered_eraseKeys l :
  flat_map rendered (map eraseKeys l) = flat_map rendered l.
Proof.
  induction l as [|x l IH]; simpl; [reflexivity|]. by rewrite rendered_eraseKeys, IH.
Qed.

Lemma rendered_leaves n : flat_map rendered (leaves n) = rendered n.
Proof.
  induction n as [| |b|z|s|items IH|ty k f c IH] using ReactNode_ind;
    simpl; rewrite ?app_nil_r; try reflexivity.
  induction IH as [|x l Hx _ IHl]; simpl; [reflexivity|].
  by rewrite flat_map_app, Hx, IHl.
Qed.

Lemma rendered_omit_empty l : flat_map rendered (omit_empty l) = flat_map rendered l.
Proof.
  induction l as [|x l IH]; simpl; [reflexivity|].
  destruct x; simpl; by rewrite IH.
Qed.

Lemma rendered_mapIntoArray_enhance options c p nm :
  Forall (fun x => rendered (enhance options x) = rendered x) (leaves c) ->
  flat_map rendered (mapIntoArray (enhance options) c p nm) = rendered c.
Proof.
  intros H.
  rewrite <- flat_map_rendered_eraseKeys, mapIntoArray_enhance_eraseKeys,
    flat_map_rendered_eraseKeys, rendered_omit_empty, <- rendered_leaves.
  induction H as [|x l Hx _ IH]; simpl; [reflexivity|]. by rewrite Hx, IH.
Qed.

Lemma enhance_rendered_leaves options n :
  inherits_nothing options ->
  Forall (fun x => rendered (enhance options x) = rendered x) (leaves n).
Proof.
  intros Hno. apply leaves_Forall_ind; try reflexivity.
  intros e IH. rewrite enhance_element, enhanceElement_eq.
  destruct (elem_type e) as [tag|id dn] eqn:He; [reflexivity|]. cbv zeta.
  rewrite (Hno (default "" dn)).
  destruct (children (elem_props e)) as [c|] eqn:Hc; [|reflexivity].
  destruct (truthy c) eqn:Ht; [|reflexivity].
  unfold descend.
  rewrite !rendered_element, cloneElement_type, cloneElement_own_fields,
    cloneElement_children, Hc, (Children_map_truthy _ _ Ht).
  cbn [with_children children rendered].
  by rewrite (rendered_mapIntoArray_enhance _ _ _ _ (IH c eq_refl)).
Qed.

(** X4: under a configuration that gives no label a non-empty props
    object (an empty map, empty props, empty entries only), the result
    renders exactly the tree it was given: the same elements with the
    same props, texts and numbers, nested and ordered as before. *)
Theorem empty_configuration_renders_the_same options T :
  inherits_nothing options ->
  rendered (useEnhanceChildren options T) = rendered T.
Proof.
  intros Hno. destruct (isEmptyNode T) eqn:HT; [by destruct T|].
  assert (Hu : useEnhanceChildren options T
               = RArray (mapIntoArray (enhance options) T "" ""))
    by (destruct T; try reflexivity; discriminate).
  rewrite Hu. simpl.
  apply rendered_mapIntoArray_enhance, enhance_rendered_leaves, Hno.
Qed.

Lemma empty_configuration_renders_the_same_witness :
  inherits_nothing (broadcast_options (mkProps ∅ None))
  /\ rendered (useEnhanceChildren (broadcast_options (mkProps ∅ None)) header_null_footer)
     = rendered header_null_footer.
Proof.
  assert (H : inherits_nothing (broadcast_options (mkProps ∅ None))).
  { intros name. reflexivity. }
  split; [exact H|].
  exact (empty_configuration_renders_the_same _ header_null_footer H).
Defined.

(** ** Keys *)

Lemma invokeCallback_isKeyed f nested x p nm :
  isArray (f x) = false ->
  Forall (fun y => isKeyed y = true) (invokeCallback f nested x p nm).
Proof.
  unfold invokeCallback. destruct (f x) as [| | | | | |e]; intros Ha;
    try discriminate Ha; repeat constructor.
Qed.

Lemma mapIntoArray_isKeyed f c p nm :
  Forall (fun x => isArray (f x) = false) (leaves c) ->
  Forall (fun y => isKeyed y = true) (mapIntoArray f c p nm).
Proof.
  unfold mapIntoArray. rewrite traverse_named, <- (named_leaves_fst c nm).
  induction (named_leaves c nm) as [|[x n] l IH]; simpl; intros H; [constructor|].
  apply Forall_cons in H as [Hx Hl]. simpl in Hx.
  apply Forall_app; split; [by apply invokeCallback_isKeyed | by apply IH].
Qed.

(** X5: every element in the list the hook returns has a key, whether or
    not the child it comes from had one. *)
Theorem result_elements_are_keyed options T :
  Forall (fun y => isKeyed y = true) (members (useEnhanceChildren options T)).
Proof.
  destruct (isEmptyNode T) eqn:HT; [destruct T; try discriminate; constructor|].
  assert (Hu : useEnhanceChildren options T
               = RArray (mapIntoArray (enhance options) T "" ""))
    by (destruct T; try reflexivity; discriminate).
  rewrite Hu. simpl. apply mapIntoArray_isKeyed, enhance_leaves_not_array.
Qed.

(** X6: the hook never looks at keys: two trees that differ only in the
    keys of their elements give results that differ only in keys. *)
Theorem keys_do_not_matter options T1 T2 :
  eraseKeys T1 = eraseKeys T2 ->
  eraseKeys (useEnhanceChildren options T1)
  = eraseKeys (useEnhanceChildren options T2).
Proof.
  intros H.
  assert (He : isEmptyNode T2 = isEmptyNode T1)
    by (by rewrite <- (isEmptyNode_eraseKeys T2), <- H, isEmptyNode_eraseKeys).
  destruct (isEmptyNode T1) eqn:HT.
  - destruct T1, T2 as [| | | | | |[ty k [f c]]]; try discriminate; reflexivity.
  - assert (Hu : forall T, isEmptyNode T = false ->
               useEnhanceChildren options T
               = RArray (mapIntoArray (enhance options) T "" ""))
      by (intros T HT'; destruct T; try reflexivity; discriminate).
    rewrite (Hu T1 HT), (Hu T2 He). simpl. f_equal.
    rewrite !mapIntoArray_enhance_eraseKeys.
    apply omit_map_enhance_congr; [apply enhance_eraseKeys_congr_leaves|].
    by rewrite <- !leaves_eraseKeys, H.
Qed.

Lemma keys_do_not_matter_witness :
  eraseKeys keyed_header = eraseKeys (RElement (jsx Card_Header ∅ None))
  /\ eraseKeys (useEnhanceChildren header_title_only keyed_header)
     = eraseKeys (useEnhanceChildren header_title_only
                    (RElement (jsx Card_Header ∅ None))).
Proof.
  assert (H : eraseKeys keyed_header = eraseKeys (RElement (jsx Card_Header ∅ None)))
    by reflexivity.
  split; [exact H|].
  exact (keys_do_not_matter header_title_only _ _ H).
Defined.

(** * Card *)

(** ** The native elements of the subcomponents *)

Lemma native_with_rest_lookup tag testid cls rest child name :
  attributes (native_with_rest tag testid cls rest child) !! name =
  if String.eqb name "key" then None
  else if String.eqb name "className" then Some (JString cls)
  else match fields rest !! name with
       | Some v => Some v
       | None => if String.eqb name "data-testid" then Some (JString testid) else None
       end.
Proof.
  unfold native_with_rest, attributes, jsx_runtime. simpl.
  destruct (String.eqb_spec name "key") as [->|Hk].
  { apply lookup_delete_eq. }
  rewrite lookup_delete_ne by congruence.
  destruct (String.eqb_spec name "className") as [->|Hc].
  { apply lookup_insert_eq. }
  rewrite lookup_insert_ne by congruence.
  rewrite lookup_union.
  destruct (fields rest !! name) as [v|] eqn:Hv.
  - by destruct (({[ "data-testid" := JString testid ]} : gmap string JsValue) !! name).
  - destruct (String.eqb_spec name "data-testid") as [->|Ht].
    + by rewrite lookup_singleton_eq.
    + by rewrite lookup_singleton_ne.
Qed.

Lemma native_with_rest_children tag testid cls rest child :
  children_of (native_with_rest tag testid cls rest child) = Some child.
Proof. reflexivity. Qed.

Lemma take_field_lookup name p other :
  fields (snd (take_field name p)) !! other =
  if String.eqb other name then None else fields p !! other.
Proof.
  simpl. destruct (String.eqb_spec other name) as [->|Hn].
  - apply lookup_delete_eq.
  - by apply lookup_delete_ne.
Qed.

(** A subcomponent that takes [own] out of its props and shows it as its
    only child. *)
Lemma labelled_native_spec tag testid cls own p :
  own <> "key"%string -> own <> "className"%string -> own <> "data-testid"%string ->
  let n := native_with_rest tag testid cls (snd (take_field own p))
             (node_of_value (fst (take_field own p))) in
  attributes n !! "className" = Some (JString cls)
  /\ attributes n !! own = None
  /\ children_of n = Some (node_of_value (default JUndefined (fields p !! own)))
  /\ (forall name v, fields p !! name = Some v ->
        name <> "className"%string -> name <> "key"%string -> name <> own ->
        attributes n !! name = Some v)
  /\ (fields p !! "data-testid" = None ->
      attributes n !! "data-testid" = Some (JString testid)).
Proof.
  intros Hk Hc Ht n. unfold n.
  split; [|split; [|split; [|split]]].
  - rewrite native_with_rest_lookup. reflexivity.
  - rewrite native_with_rest_lookup, take_field_lookup.
    destruct (String.eqb_spec own "key"); [congruence|].
    destruct (String.eqb_spec own "className"); [congruence|].
    rewrite String.eqb_refl.
    destruct (String.eqb_spec own "data-testid"); [congruence | reflexivity].
  - reflexivity.
  - intros name v Hv Hnc Hnk Hno.
    rewrite native_with_rest_lookup, take_field_lookup.
    destruct (String.eqb_spec name "key"); [congruence|].
    destruct (String.eqb_spec name "className"); [congruence|].
    destruct (String.eqb_spec name own); [congruence|]. by rewrite Hv.
  - intros Hnone. rewrite native_with_rest_lookup, take_field_lookup.
    change (String.eqb "data-testid" "key") with false.
    change (String.eqb "data-testid" "className") with false.
    change (String.eqb "data-testid" "data-testid") with true.
    cbv iota.
    destruct (String.eqb_spec "data-testid" own); [congruence|]. by rewrite Hnone.
Qed.

(** X7: [Card.Header] always renders a [header] element with its own
    [className], never puts [title] among the attributes of the
    [header], and shows the title as its only child; every other prop it
    receives is forwarded to the [header], and [data-testid] is
    [card-header] unless the props say otherwise.  [Card.Footer] does the
    same with a [footer] element and [description]. *)
Theorem header_and_footer_attributes p :
  (element_type_of (Card_Header_render p) = Some (TTag "header")
   /\ attributes (Card_Header_render p) !! "className" = Some (JString Header_className)
   /\ attributes (Card_Header_render p) !! "title" = None
   /\ children_of (Card_Header_render p)
      = Some (node_of_value (default JUndefined (fields p !! "title")))
   /\ (forall name v, fields p !! name = Some v ->
         name <> "className"%string -> name <> "key"%string -> name <> "title"%string ->
         attributes (Card_Header_render p) !! name = Some v)
   /\ (fields p !! "data-testid" = None ->
       attributes (Card_Header_render p) !! "data-testid" = Some (JString "card-header")))
  /\
  (element_type_of (Card_Footer_render p) = Some (TTag "footer")
   /\ attributes (Card_Footer_render p) !! "className" = Some (JString Footer_className)
   /\ attributes (Card_Footer_render p) !! "description" = None
   /\ children_of (Card_Footer_render p)
      = Some (node_of_value (default JUndefined (fields p !! "description")))
   /\ (forall name v, fields p !! name = Some v ->
         name <> "className"%string -> name <> "key"%string ->
         name <> "description"%string ->
         attributes (Card_Footer_render p) !! name = Some v)
   /\ (fields p !! "data-testid" = None ->
       attributes (Card_Footer_render p) !! "data-testid" = Some (JString "card-footer"))).
Proof.
  split.
  - split; [reflexivity|].
    apply (labelled_native_spec "header" "card-header" Header_className "title" p);
      discriminate.
  - split; [reflexivity|].
    apply (labelled_native_spec "footer" "card-footer" Footer_className "description" p);
      discriminate.
Qed.

(** [<Card.Header title="Título" id="h" />] *)
Lemma header_and_footer_attributes_witness :
  let p := only_fields {[ "title" := JString "Título"; "id" := JString "h" ]} in
  element_type_of (Card_Header_render p) = Some (TTag "header")
  /\ attributes (Card_Header_render p) !! "title" = None
  /\ attributes (Card_Header_render p) !! "id" = Some (JString "h")
  /\ attributes (Card_Header_render p) !! "data-testid" = Some (JString "card-header")
  /\ children_of (Card_Header_render p) = Some (RString "Título").
Proof.
  intros p.
  destruct (proj1 (header_and_footer_attributes p)) as (Hty & _ & Ht & Hc & Hfw & Hid).
  split; [exact Hty|].
  split; [exact Ht | split; [|split]].
  - apply Hfw; [vm_compute; reflexivity | discriminate | discriminate | discriminate].
  - apply Hid. vm_compute. reflexivity.
  - rewrite Hc. vm_compute. reflexivity.
Defined.

(** X8: [Card.Body] hands its [children] on unchanged and forwards every
    other prop to the [main] element, [title] and [description]
    included; only [className] is its own. *)
Theorem body_forwards_props p :
  attributes (Card_Body_render p) !! "className" = Some (JString Body_className)
  /\ children_of (Card_Body_render p) = Some (default RUndefined (children p))
  /\ (forall name v, fields p !! name = Some v ->
        name <> "className"%string -> name <> "key"%string ->
        attributes (Card_Body_render p) !! name = Some v).
Proof.
  change (Card_Body_render p)
    with (native_with_rest "main" "card-body" Body_className
            (mkProps (fields p) None) (default RUndefined (children p))).
  split; [|split].
  - rewrite native_with_rest_lookup. reflexivity.
  - reflexivity.
  - intros name v Hv Hc Hk. rewrite native_with_rest_lookup.
    destruct (String.eqb_spec name "key"); [congruence|].
    destruct (String.eqb_spec name "className"); [congruence|].
    cbn [fields]. by rewrite Hv.
Qed.

(** [<Card.Body title="Título">x</Card.Body>] *)
Lemma body_forwards_props_witness :
  let p := mkProps {[ "title" := JString "Título" ]} (Some (RString "x")) in
  attributes (Card_Body_render p) !! "title" = Some (JString "Título")
  /\ children_of (Card_Body_render p) = Some (RString "x").
Proof.
  intros p. destruct (body_forwards_props p) as (_ & Hc & Hfw).
  split; [|exact Hc].
  apply Hfw; [vm_compute; reflexivity | discriminate | discriminate].
Defined.

(** ** The card and its children *)

Lemma Card_render_children p :
  children_of (Card_render p)
  = Some (useEnhanceChildren (Card_options p) (default RUndefined (children p))).
Proof. reflexivity. Qed.

Lemma Card_options_inherited p name :
  inheritedProps (Card_options p) name = Some (mkProps (fields p) None).
Proof. reflexivity. Qed.

(** A child the callback maps to something that is neither empty nor an
    array has its image, up to its key, in the result. *)
Lemma mapIntoArray_elem f c p nm x :
  x ∈ leaves c ->
  isArray (f x) = false -> isEmptyNode (f x) = false ->
  exists y, y ∈ mapIntoArray f c p nm /\ eraseKeys y = eraseKeys (f x).
Proof.
  unfold mapIntoArray. rewrite traverse_named, <- (named_leaves_fst c nm).
  intros Hx Ha He. apply list_elem_of_fmap in Hx as ([x' n] & -> & Hin). simpl in *.
  assert (Hy : exists y, y ∈ invokeCallback f mapIntoArray_id x' p n
                         /\ eraseKeys y = eraseKeys (f x')).
  { unfold invokeCallback.
    destruct (f x') as [| | | | | |e]; try discriminate;
      try (eexists; split; [apply list_elem_of_singleton; reflexivity | reflexivity]).
    eexists; split; [apply list_elem_of_singleton; reflexivity|].
    apply eraseKeys_cloneAndReplaceKey. }
  destruct Hy as (y & Hy & Hey). exists y. split; [|exact Hey].
  apply list_elem_of_In, in_flat_map. exists (x', n).
  split; apply list_elem_of_In; assumption.
Qed.

(** X9: [Card] renders a [div] that has exactly its two own attributes,
    whatever props the card receives.  The children of the [div] are the
    result of the hook called in Broadcast mode on the card's children,
    with the card's props without [children]; so nothing is ever injected
    as [children], and the children render with the shape they were
    given. *)
Theorem Card_wraps_its_children p :
  element_type_of (Card_render p) = Some (TTag "div")
  /\ attributes (Card_render p)
     = {[ "data-testid" := JString "card"; "className" := JString Card_className ]}
  /\ Card_options p = mkOptions None (Some (mkProps (fields p) None))
  /\ children_of (Card_render p)
     = Some (useEnhanceChildren (mkOptions None (Some (mkProps (fields p) None)))
               (default RUndefined (children p)))
  /\ no_injected_children (Card_options p) = true
  /\ exists c, children_of (Card_render p) = Some c
       /\ shape c = shape (default RUndefined (children p)).
Proof.
  split; [reflexivity|]. split; [by vm_compute|]. split; [reflexivity|].
  split; [reflexivity|]. split; [reflexivity|].
  eexists; split; [apply Card_render_children|].
  set (T := default RUndefined (children p)).
  destruct (isEmptyNode T) eqn:HT; [by destruct T|].
  assert (Hu : useEnhanceChildren (Card_options p) T
               = RArray (mapIntoArray (enhance (Card_options p)) T "" ""))
    by (destruct T; try reflexivity; discriminate).
  rewrite Hu. simpl.
  apply shape_mapIntoArray_enhance, enhance_shape_leaves. reflexivity.
Qed.

(** A component among the top-level children of the card has its image
    in the children of the [div]: an element of the same type whose props
    are those of the merge with the card's props. *)
Lemma Card_child_member p e :
  RElement e ∈ leaves (default RUndefined (children p)) ->
  isComponent (elem_type e) = true ->
  fields p <> ∅ ->
  exists l r,
    children_of (Card_render p) = Some (RArray l)
    /\ RElement r ∈ l
    /\ elem_type r = elem_type e
    /\ fields (elem_props r)
       = fields (elem_props (cloneElement e
                               (spread (mkProps (fields p) None) (elem_props e)))).
Proof.
  intros Hin Hc Hne.
  set (T := default RUndefined (children p)) in *.
  assert (HT : isEmptyNode T = false).
  { destruct T; try reflexivity; simpl in Hin;
      apply list_elem_of_singleton in Hin; discriminate. }
  assert (Hu : useEnhanceChildren (Card_options p) T
               = RArray (mapIntoArray (enhance (Card_options p)) T "" ""))
    by (destruct T; try reflexivity; discriminate).
  assert (Hn : (0 < Object_keys_length (mkProps (fields p) None))%nat).
  { unfold Object_keys_length. simpl.
    apply map_size_non_empty_iff in Hne. lia. }
  pose proof (enhance_merge (Card_options p) e (mkProps (fields p) None) Hc
                (Card_options_inherited p _) Hn) as Hm.
  destruct (mapIntoArray_elem (enhance (Card_options p)) T "" "" (RElement e) Hin)
    as (y & Hy & Hey).
  { by rewrite enhance_isArray. }
  { by rewrite enhance_isEmptyNode. }
  rewrite Hm in Hey. unfold merged in Hey. symmetry in Hey.
  destruct (eraseKeys_element_inv _ _ Hey) as (r & -> & Hty & Hf & _).
  exists (mapIntoArray (enhance (Card_options p)) T "" ""), r.
  split; [by rewrite Card_render_children; fold T; rewrite Hu|].
  split; [exact Hy|]. split; [by rewrite Hty, cloneElement_type | exact Hf].
Qed.

Lemma lookup_Some_non_empty (m : gmap string JsValue) name v :
  m !! name = Some v -> m <> ∅.
Proof. intros H ->. by rewrite lookup_empty in H. Qed.

(** X10: every prop of the card reaches every component among its
    top-level children: such a child comes out with the same type and
    with the card's value for that prop, or with its own value if it has
    one.  (The names [cloneElement] reserves are not props.) *)
Theorem Card_props_reach_children p e name v :
  RElement e ∈ leaves (default RUndefined (children p)) ->
  isComponent (elem_type e) = true ->
  fields p !! name = Some v ->
  isReservedProp name v = false ->
  exists l r,
    children_of (Card_render p) = Some (RArray l)
    /\ RElement r ∈ l
    /\ elem_type r = elem_type e
    /\ fields (elem_props r) !! name
       = Some (default v (fields (elem_props e) !! name)).
Proof.
  intros Hin Hc Hv Hr.
  destruct (Card_child_member p e Hin Hc (lookup_Some_non_empty _ _ _ Hv))
    as (l & r & Hl & Hrl & Hty & Hf).
  exists l, r. split; [exact Hl | split; [exact Hrl | split; [exact Hty|]]].
  rewrite Hf, merged_lookup. cbn [fields].
  destruct (fields (elem_props e) !! name); [reflexivity|]. by rewrite Hv, Hr.
Qed.

(** [<Card title="Título" description="Descrição"><Card.Header /></Card>] *)
Lemma Card_props_reach_children_witness :
  let p := mkProps card_props (Some (RElement (jsx Card_Header ∅ None))) in
  RElement (jsx Card_Header ∅ None) ∈ leaves (default RUndefined (children p))
  /\ isComponent Card_Header = true
  /\ fields p !! "title" = Some (JString "Título")
  /\ isReservedProp "title" (JString "Título") = false
  /\ exists l r,
       children_of (Card_render p) = Some (RArray l)
       /\ RElement r ∈ l
       /\ elem_type r = Card_Header
       /\ fields (elem_props r) !! "title" = Some (JString "Título").
Proof.
  intros p.
  assert (H1 : RElement (jsx Card_Header ∅ None)
               ∈ leaves (default RUndefined (children p)))
    by (apply list_elem_of_singleton; reflexivity).
  assert (H3 : fields p !! "title" = Some (JString "Título"))
    by (vm_compute; reflexivity).
  split; [exact H1 | split; [reflexivity | split; [exact H3 | split; [reflexivity|]]]].
  exact (Card_props_reach_children p (jsx Card_Header ∅ None) "title" _
           H1 eq_refl H3 eq_refl).
Defined.

(** X11: a [Card.Header] among the top-level children of a card with a
    [title] renders that title as the text of its [header], unless it
    was given a [title] of its own, which it then renders; a
    [Card.Footer] does the same with [description]. *)
Theorem Card_title_and_description_are_shown p e v :
  RElement e ∈ leaves (default RUndefined (children p)) ->
  (elem_type e = Card_Header -> fields p !! "title" = Some v ->
   exists l r,
     children_of (Card_render p) = Some (RArray l) /\ RElement r ∈ l
     /\ elem_type r = Card_Header
     /\ children_of (Card_Header_render (elem_props r))
        = Some (node_of_value (default v (fields (elem_props e) !! "title"))))
  /\
  (elem_type e = Card_Footer -> fields p !! "description" = Some v ->
   exists l r,
     children_of (Card_render p) = Some (RArray l) /\ RElement r ∈ l
     /\ elem_type r = Card_Footer
     /\ children_of (Card_Footer_render (elem_props r))
        = Some (node_of_value (default v (fields (elem_props e) !! "description")))).
Proof.
  intros Hin. split; intros Hty Hv.
  - destruct (Card_child_member p e Hin) as (l & r & Hl & Hr & Ht & Hf);
      [by rewrite Hty | by apply (lookup_Some_non_empty _ _ _ Hv) |].
    exists l, r. split; [exact Hl | split; [exact Hr | split; [congruence|]]].
    change (children_of (Card_Header_render (elem_props r)))
      with (Some (node_of_value
                    (default JUndefined (fields (elem_props r) !! "title")))).
    rewrite Hf, merged_lookup. cbn [fields]. rewrite Hv.
    destruct (fields (elem_props e) !! "title"); [reflexivity|]. by destruct v.
  - destruct (Card_child_member p e Hin) as (l & r & Hl & Hr & Ht & Hf);
      [by rewrite Hty | by apply (lookup_Some_non_empty _ _ _ Hv) |].
    exists l, r. split; [exact Hl | split; [exact Hr | split; [congruence|]]].
    change (children_of (Card_Footer_render (elem_props r)))
      with (Some (node_of_value
                    (default JUndefined (fields (elem_props r) !! "description")))).
    rewrite Hf, merged_lookup. cbn [fields]. rewrite Hv.
    destruct (fields (elem_props e) !! "description"); [reflexivity|]. by destruct v.
Qed.

Lemma Card_title_and_description_are_shown_witness :
  let p := mkProps card_props (Some (RElement (jsx Card_Header ∅ None))) in
  RElement (jsx Card_Header ∅ None) ∈ leaves (default RUndefined (children p))
  /\ exists l r,
       children_of (Card_render p) = Some (RArray l) /\ RElement r ∈ l
       /\ elem_type r = Card_Header
       /\ children_of (Card_Header_render (elem_props r)) = Some (RString "Título").
Proof.
  intros p.
  assert (H1 : RElement (jsx Card_Header ∅ None)
               ∈ leaves (default RUndefined (children p)))
    by (apply list_elem_of_singleton; reflexivity).
  split; [exact H1|].
  apply (proj1 (Card_title_and_description_are_shown p (jsx Card_Header ∅ None)
                  (JString "Título") H1)).
  - reflexivity.
  - vm_compute. reflexivity.
Defined.

(** X12: a [Card.Body] among the top-level children of a card receives
    the card's props like any component and forwards them: the [main]
    element it renders carries each prop of the card as an attribute
    ([title], [description]), with the body's own value if it has one. *)
Theorem Card_props_land_on_the_body p e name v :
  RElement e ∈ leaves (default RUndefined (children p)) ->
  elem_type e = Card_Body ->
  fields p !! name = Some v ->
  isReservedProp name v = false ->
  name <> "className"%string ->
  exists l r,
    children_of (Card_render p) = Some (RArray l) /\ RElement r ∈ l
    /\ elem_type r = Card_Body
    /\ attributes (Card_Body_render (elem_props r)) !! name
       = Some (default v (fields (elem_props e) !! name)).
Proof.
  intros Hin Hty Hv Hr Hc.
  destruct (Card_child_member p e Hin) as (l & r & Hl & Hrl & Ht & Hf);
    [by rewrite Hty | by apply (lookup_Some_non_empty _ _ _ Hv) |].
  exists l, r. split; [exact Hl | split; [exact Hrl | split; [congruence|]]].
  change (Card_Body_render (elem_props r))
    with (native_with_rest "main" "card-body" Body_className
            (mkProps (fields (elem_props r)) None)
            (default RUndefined (children (elem_props r)))).
  rewrite native_with_rest_lookup.
  destruct (String.eqb_spec name "key") as [->|Hk].
  { unfold isReservedProp in Hr. simpl in Hr. discriminate Hr. }
  destruct (String.eqb_spec name "className"); [congruence|].
  cbn [fields]. rewrite Hf, merged_lookup. cbn [fields].
  destruct (fields (elem_props e) !! name); [reflexivity|]. by rewrite Hv, Hr.
Qed.

(** [<Card title="Título" description="Descrição"><Card.Body /></Card>] *)
Lemma Card_props_land_on_the_body_witness :
  let p := mkProps card_props (Some (RElement (jsx Card_Body ∅ None))) in
  RElement (jsx Card_Body ∅ None) ∈ leaves (default RUndefined (children p))
  /\ fields p !! "title" = Some (JString "Título")
  /\ exists l r,
       children_of (Card_render p) = Some (RArray l) /\ RElement r ∈ l
       /\ elem_type r = Card_Body
       /\ attributes (Card_Body_render (elem_props r)) !! "title"
          = Some (JString "Título").
Proof.
  intros p.
  assert (H1 : RElement (jsx Card_Body ∅ None)
               ∈ leaves (default RUndefined (children p)))
    by (apply list_elem_of_singleton; reflexivity).
  assert (H3 : fields p !! "title" = Some (JString "Título"))
    by (vm_compute; reflexivity).
  split; [exact H1 | split; [exact H3|]].
  apply (Card_props_land_on_the_body p (jsx Card_Body ∅ None) "title" _
           H1 eq_refl H3 eq_refl).
  discriminate.
Defined.

(** * App: the theme *)

Lemma themeEffect_storage t b k :
  localStorage (themeEffect t b) !! k
  = if String.eqb k "theme" then Some t else localStorage b !! k.
Proof.
  simpl. destruct (String.eqb_spec k "theme") as [->|Hk].
  - apply lookup_insert_eq.
  - by apply lookup_insert_ne.
Qed.

Lemma themeEffect_classList t b c :
  c ∈ classList (themeEffect t b)
  <-> (if String.eqb c "dark" then t = "dark"%string else c ∈ classList b).
Proof.
  simpl. destruct (String.eqb_spec t "dark") as [Ht|Ht];
    destruct (String.eqb_spec c "dark") as [Hc|Hc].
  - rewrite elem_of_union, elem_of_singleton. tauto.
  - rewrite elem_of_union, elem_of_singleton. tauto.
  - rewrite elem_of_difference, elem_of_singleton. tauto.
  - rewrite elem_of_difference, elem_of_singleton. tauto.
Qed.

Lemma clicks_succ n s : clicks (S n) s = click (clicks n s).
Proof. reflexivity. Qed.

(** After the first render and after every click, the state is a theme
    together with the browser as the effect for that theme left it. *)
Lemma clicks_mount_effect b n :
  exists b', clicks n (mount b)
             = mkAppState (theme (clicks n (mount b)))
                 (themeEffect (theme (clicks n (mount b))) b').
Proof. destruct n; eexists; reflexivity. Qed.

(** X13: once mounted, and after any number of clicks, the stored theme
    is the current theme, the root element has the class [dark] exactly
    when the theme is dark, and a reload starts from the current theme. *)
Theorem theme_is_persisted_and_shown b n :
  let s := clicks n (mount b) in
  localStorage (browser s) !! "theme" = Some (theme s)
  /\ ("dark"%string ∈ classList (browser s) <-> theme s = "dark"%string)
  /\ initialTheme (Some (browser s)) = theme s.
Proof.
  intros s. destruct (clicks_mount_effect b n) as (b' & Hs). fold s in Hs.
  assert (Hst : localStorage (browser s) !! "theme" = Some (theme s)).
  { rewrite Hs. cbn [browser theme]. by rewrite themeEffect_storage. }
  split; [exact Hst | split].
  - rewrite Hs. cbn [browser theme]. by rewrite themeEffect_classList.
  - simpl. by rewrite Hst.
Qed.

(** X14: mounting and clicking touch nothing but the [theme] entry of
    the storage and the [dark] class of the root element. *)
Theorem theme_touches_nothing_else b n k c :
  k <> "theme"%string -> c <> "dark"%string ->
  let s := clicks n (mount b) in
  localStorage (browser s) !! k = localStorage b !! k
  /\ (c ∈ classList (browser s) <-> c ∈ classList b).
Proof.
  intros Hk Hc. induction n as [|n [IH1 IH2]]; cbv zeta.
  - change (browser (clicks 0 (mount b)))
      with (themeEffect (initialTheme (Some b)) b).
    split.
    + rewrite themeEffect_storage. by destruct (String.eqb_spec k "theme").
    + rewrite themeEffect_classList. by destruct (String.eqb_spec c "dark").
  - change (browser (clicks (S n) (mount b)))
      with (themeEffect (toggleTheme (theme (clicks n (mount b))))
              (browser (clicks n (mount b)))).
    split.
    + rewrite themeEffect_storage.
      destruct (String.eqb_spec k "theme"); [done | exact IH1].
    + rewrite themeEffect_classList.
      destruct (String.eqb_spec c "dark"); [done | exact IH2].
Qed.

Lemma theme_touches_nothing_else_witness :
  let b := mkBrowser {[ "lang" := "pt" ]} {[ "no-js"%string ]} in
  "lang"%string <> "theme"%string /\ "no-js"%string <> "dark"%string
  /\ localStorage (browser (clicks 3 (mount b))) !! "lang" = Some "pt"%string.
Proof.
  intros b.
  assert (H1 : "lang"%string <> "theme"%string) by discriminate.
  assert (H2 : "no-js"%string <> "dark"%string) by discriminate.
  split; [exact H1 | split; [exact H2|]].
  rewrite (proj1 (theme_touches_nothing_else b 3 "lang" "no-js" H1 H2)).
  vm_compute. reflexivity.
Defined.

(** X15: from a theme that is [light] or [dark], clicking alternates
    between the two: after an even number of clicks the theme is the one
    it was, after an odd number it is the other one. *)
Theorem clicks_alternate s n :
  theme s = "light"%string \/ theme s = "dark"%string ->
  theme (clicks n s) = if Nat.even n then theme s else toggleTheme (theme s).
Proof.
  intros Hv. induction n as [|n IH]; [reflexivity|].
  rewrite clicks_succ. unfold click at 1. cbn [theme]. rewrite IH.
  rewrite Nat.even_succ, <- Nat.negb_even.
  destruct (Nat.even n); simpl; [reflexivity|].
  destruct Hv as [-> | ->]; reflexivity.
Qed.

Lemma clicks_alternate_witness :
  let s := mount (mkBrowser {[ "theme" := "dark" ]} ∅) in
  (theme s = "light"%string \/ theme s = "dark"%string)
  /\ theme (clicks 3 s) = "light"%string.
Proof.
  intros s.
  assert (H : theme s = "light"%string \/ theme s = "dark"%string)
    by (right; vm_compute; reflexivity).
  split; [exact H|].
  rewrite (clicks_alternate s 3 H). vm_compute. reflexivity.
Defined.

(** X16: the stored theme is not validated.  A stored value that is
    neither [light] nor [dark] becomes the theme as it is: the button
    reads "Light mode" and is not pressed, the [dark] class is removed
    and the value is written back; the first click then gives [light],
    not [dark], and the theme is valid from there on. *)
Theorem stored_theme_is_not_validated b t n :
  localStorage b !! "theme" = Some t ->
  t <> "light"%string -> t <> "dark"%string ->
  let s := mount b in
  theme s = t
  /\ buttonLabel (theme s) = "Light mode"%string
  /\ ariaPressed (theme s) = false
  /\ ("dark"%string ∉ classList (browser s))
  /\ localStorage (browser s) !! "theme" = Some t
  /\ theme (click s) = "light"%string
  /\ (theme (clicks (S n) s) = "light"%string
      \/ theme (clicks (S n) s) = "dark"%string).
Proof.
  intros Ht Hl Hd s.
  assert (Hs : theme s = t) by (unfold s, mount; simpl; by rewrite Ht).
  apply String.eqb_neq in Hl as Hl', Hd as Hd'.
  split; [exact Hs|]. rewrite Hs.
  split; [unfold buttonLabel; by rewrite Hd'|].
  split; [exact Hd'|].
  assert (Hb : browser s = themeEffect t b).
  { rewrite <- Hs. reflexivity. }
  split.
  { rewrite Hb, themeEffect_classList. exact Hd. }
  split.
  { by rewrite Hb, themeEffect_storage. }
  split.
  { unfold click. cbn [theme]. rewrite Hs. unfold toggleTheme. by rewrite Hl'. }
  rewrite clicks_succ. unfold click. cbn [theme]. unfold toggleTheme.
  destruct (String.eqb (theme (clicks n s)) "light"); [by right | by left].
Qed.

Lemma stored_theme_is_not_validated_witness :
  let b := mkBrowser {[ "theme" := "blue" ]} {[ "dark"%string ]} in
  localStorage b !! "theme" = Some "blue"%string
  /\ "blue"%string <> "light"%string /\ "blue"%string <> "dark"%string
  /\ theme (mount b) = "blue"%string
  /\ buttonLabel (theme (mount b)) = "Light mode"%string.
Proof.
  intros b.
  assert (H1 : localStorage b !! "theme" = Some "blue"%string)
    by (vm_compute; reflexivity).
  assert (H2 : "blue"%string <> "light"%string) by discriminate.
  assert (H3 : "blue"%string <> "dark"%string) by discriminate.
  split; [exact H1 | split; [exact H2 | split; [exact H3|]]].
  destruct (stored_theme_is_not_validated b "blue" 0 H1 H2 H3) as (Ha & Hb & _).
  split; [exact Ha | exact Hb].
Defined.
